(** * backpack_exchange_sdk/websocket.py: the WebSocketClient

    A shallow embedding of [WebSocketClient]: the callback registry
    ([self.callbacks]), the request signer, [subscribe] / [unsubscribe] /
    [close], and the session callbacks [on_message], [on_error], [on_close]
    and [on_open] installed by [_connect] ([on_ping] is left out: nothing
    below depends on it).

    Python statements are written in a small monad that threads the client
    object, records the observable effects (prints, sleeps, sends, thread
    starts, handler invocations) in order, and keeps both the mutated object
    and the effects when an exception is raised. *)

From Stdlib Require Import ZArith String List DecimalString.
From stdpp Require Import base gmap strings list fin_maps.

#[local] Set Warnings "-register-all".
#[local] Open Scope string_scope.
#[local] Open Scope list_scope.
#[local] Open Scope Z_scope.

(** ** Values *)

(** A Python float as far as truthiness sees it ([0.0] and [-0.0] are falsy;
    every other float, [nan] and the infinities included, is truthy). *)
Inductive pyfloat : Type :=
| FZero (negative : bool)
| FNonZero (repr : string).

(** What [json.loads] can return. *)
Inductive json : Type :=
| JNull
| JBool (b : bool)
| JInt (n : Z)
| JFloat (f : pyfloat)
| JStr (s : string)
| JArr (l : list json)
| JObj (m : gmap string json).

Definition str_truthy (s : string) : bool :=
  match s with EmptyString => false | String _ _ => true end.

(** [bool(v)] *)
Definition truthy (v : json) : bool :=
  match v with
  | JNull => false
  | JBool b => b
  | JInt n => negb (n =? 0)
  | JFloat (FZero _) => false
  | JFloat (FNonZero _) => true
  | JStr s => str_truthy s
  | JArr l => match l with [] => false | _ :: _ => true end
  | JObj m => negb (bool_decide (m = ∅))
  end.

(** [bool(x)] for an attribute that is [None] or a [str]. *)
Definition opt_truthy (x : option string) : bool :=
  match x with None => false | Some s => str_truthy s end.

(** [str(n)] and [f"{n}"] for an [int]. *)
Definition str (n : Z) : string := NilZero.string_of_int (Z.to_int n).

(** ** Exceptions *)

Inductive exn : Type :=
| JSONDecodeError
| AttributeError (attr : string)
| TypeError (what : string)
| KeyError (key : string)
| WebSocketConnectionClosedException
| OtherException (tag : string)
| NonException (tag : string).

(** [isinstance(e, Exception)]: [SystemExit], [KeyboardInterrupt] and
    [GeneratorExit] derive from [BaseException] only. *)
Definition is_Exception (e : exn) : bool :=
  match e with NonException _ => false | _ => true end.

(** ** Handlers

    A registered callback is an opaque callable: applied to a payload it
    either returns or raises.  It does not call back into the client. *)
Inductive outcome : Type :=
| Returns
| Raises (e : exn).

Record Callable : Type := mkCallable {
  fn_name : string;
  fn_body : json → outcome
}.

(** ** Observable effects *)

Inductive event : Type :=
| Stdout (line : string)
| StdoutExn (prefix : string) (e : exn)
| Sleep (seconds : Z)
| ThreadStart (url : string)
| Send (data : string)
| AppClose
| Call (callback : Callable) (arg : json).

(** ** The objects *)

(** [websocket.WebSocketApp]: its endpoint and whether its socket is
    connected.  A new app has no socket until its thread has connected. *)
Record WebSocketApp : Type := mkApp {
  url : string;
  sock : bool
}.

Record WebSocketClient : Type := mkClient {
  ws : option WebSocketApp;
  api_key : option string;
  secret_key : option string;
  base_url : string;
  callbacks : gmap string (list Callable)
}.

Definition set_ws (w : option WebSocketApp) (self : WebSocketClient) : WebSocketClient :=
  {| ws := w; api_key := api_key self; secret_key := secret_key self;
     base_url := base_url self; callbacks := callbacks self |}.

Definition set_callbacks (c : gmap string (list Callable)) (self : WebSocketClient)
  : WebSocketClient :=
  {| ws := ws self; api_key := api_key self; secret_key := secret_key self;
     base_url := base_url self; callbacks := c |}.

(** ** The monad of method bodies *)

Record run (A : Type) : Type := mkRun {
  after : WebSocketClient;
  effects : list event;
  result : A + exn
}.
Arguments mkRun {A} _ _ _.
Arguments after {A} _.
Arguments effects {A} _.
Arguments result {A} _.

Definition M (A : Type) : Type := WebSocketClient → run A.

#[global] Instance M_ret : MRet M := λ A a self, mkRun self [] (inl a).

#[global] Instance M_bind : MBind M := λ A B k m self,
  match m self with
  | mkRun self1 tr1 (inl a) =>
      match k a self1 with
      | mkRun self2 tr2 v => mkRun self2 (tr1 ++ tr2) v
      end
  | mkRun self1 tr1 (inr e) => mkRun self1 tr1 (inr e)
  end.

Definition raise {A : Type} (e : exn) : M A := λ self, mkRun self [] (inr e).
Definition emit (ev : event) : M unit := λ self, mkRun self [ev] (inl tt).
Definition get : M WebSocketClient := λ self, mkRun self [] (inl self).
Definition modify (f : WebSocketClient → WebSocketClient) : M unit :=
  λ self, mkRun (f self) [] (inl tt).

(** [try: body except Exception as e: handler(e)] *)
Definition try_except {A : Type} (body : M A) (handler : exn → M A) : M A := λ self,
  match body self with
  | mkRun self1 tr1 (inl a) => mkRun self1 tr1 (inl a)
  | mkRun self1 tr1 (inr e) =>
      if is_Exception e then
        match handler e self1 with
        | mkRun self2 tr2 v => mkRun self2 (tr1 ++ tr2) v
        end
      else mkRun self1 tr1 (inr e)
  end.

(** [for x in l: body(x)] *)
Fixpoint for_each {A : Type} (l : list A) (body : A → M unit) : M unit :=
  match l with
  | [] => mret tt
  | x :: l' => body x ;; for_each l' body
  end.

(** ** What the client is given *)

(** [json.loads] and [json.dumps] of the standard library. *)
Class Externals : Type := {
  json_loads : string → option json;
  json_dumps : json → string
}.

Section Client.
Context `{Externals}.

(** *** Python primitives used by the methods *)

(** [data.get(key)]: only a dict has the method. *)
Definition dot_get (data : json) (key : string) : M json :=
  match data with
  | JObj m => mret (default JNull (m !! key))
  | _ => raise (AttributeError "get")
  end.

(** [data[key]] with a string key. *)
Definition getitem (data : json) (key : string) : M json :=
  match data with
  | JObj m =>
      match m !! key with
      | Some v => mret v
      | None => raise (KeyError key)
      end
  | _ => raise (TypeError "subscript")
  end.

(** [auth_data[key]] on a [Dict[str, str]]. *)
Definition dict_getitem (d : gmap string string) (key : string) : M string :=
  match d !! key with
  | Some v => mret v
  | None => raise (KeyError key)
  end.

(** [stream in self.callbacks]: lists and dicts are unhashable; the keys
    of [self.callbacks] are strings, so no other value is found. *)
Definition in_callbacks (stream : json) : M bool :=
  self ← get;
  match stream with
  | JArr _ | JObj _ => raise (TypeError "unhashable type")
  | JStr s => mret (bool_decide (is_Some (callbacks self !! s)))
  | _ => mret false
  end.

(** [self.callbacks[stream]] *)
Definition callbacks_getitem (stream : json) : M (list Callable) :=
  self ← get;
  match stream with
  | JArr _ | JObj _ => raise (TypeError "unhashable type")
  | JStr s =>
      match callbacks self !! s with
      | Some l => mret l
      | None => raise (KeyError s)
      end
  | _ => raise (KeyError EmptyString)
  end.

(** [callback(arg)] *)
Definition call (callback : Callable) (arg : json) : M unit :=
  emit (Call callback arg);;
  match fn_body callback arg with
  | Returns => mret tt
  | Raises e => raise e
  end.

(** *** Transport primitives ([websocket.WebSocketApp]) *)

(** [self.ws.send(data)]: raises when the app has no connected socket. *)
Definition ws_send (data : string) : M unit :=
  self ← get;
  match ws self with
  | None => raise (AttributeError "send")
  | Some app =>
      if sock app then emit (Send data)
      else raise WebSocketConnectionClosedException
  end.

(** [self.ws.close()] *)
Definition ws_close : M unit :=
  self ← get;
  match ws self with
  | None => raise (AttributeError "close")
  | Some app =>
      modify (set_ws (Some {| url := url app; sock := false |}));;
      emit AppClose
  end.

(** *** _connect and the callbacks it installs *)

(** Lines 61-74: a new [WebSocketApp] on [self.base_url] replaces
    [self.ws], and a daemon thread is started on its [run_forever]. *)
Definition _connect : M unit :=
  self ← get;
  modify (set_ws (Some {| url := base_url self; sock := false |}));;
  emit (ThreadStart (base_url self)).

Definition on_message (message : string) : M unit :=
  try_except
    (data ← match json_loads message with
            | Some v => mret v
            | None => raise JSONDecodeError
            end;
     stream ← dot_get data "stream";
     found ← (if truthy stream then in_callbacks stream else mret false);
     if (found : bool) then
       handlers ← callbacks_getitem stream;
       for_each handlers (λ callback,
         arg ← getitem data "data";
         call callback arg)
     else mret tt)
    (λ e, emit (StdoutExn "Error processing message: " e)).

Definition on_error (error : exn) : M unit :=
  emit (StdoutExn "WebSocket error: " error).

Definition on_close : M unit :=
  emit (Stdout "WebSocket connection closed");;
  emit (Sleep 5);;
  _connect.

Definition on_open : M unit :=
  emit (Stdout "WebSocket connection established").

(** *** __init__ *)

Definition __init__ (api_key secret_key : option string) : run unit :=
  _connect {| ws := None; api_key := api_key; secret_key := secret_key;
              base_url := "wss://ws.backpack.exchange"; callbacks := ∅ |}.

(** *** Signing *)

(** [self._sign_message(sign_str)] at line 92: the class defines no
    [_sign_message] and has no base class, so looking the attribute up
    raises before anything is called. *)
Definition _sign_message (sign_str : string) : M string :=
  raise (AttributeError "_sign_message").

Definition _generate_signature (streams : list string) (timestamp window : Z)
  : M (gmap string string) :=
  self ← get;
  if negb (opt_truthy (api_key self)) || negb (opt_truthy (secret_key self)) then
    mret ∅
  else
    let sign_str :=
      "instruction=subscribe&timestamp=" +:+ str timestamp +:+
      "&window=" +:+ str window in
    signature ← _sign_message sign_str;
    mret {[ "api-key" := default EmptyString (api_key self);
            "signature" := signature;
            "timestamp" := str timestamp;
            "window" := str window ]}.

(** The default of the [window] argument. *)
Definition default_window : Z := 5000.

(** *** subscribe, unsubscribe, close *)

(** Lines 112-114, the body of the registration loop. *)
Definition register_callback (callback : Callable) (stream : string) : M unit :=
  self ← get;
  (if bool_decide (is_Some (callbacks self !! stream)) then mret tt
   else modify (λ s, set_callbacks (<[stream := []]> (callbacks s)) s));;
  modify (λ s, set_callbacks (alter (λ l, l ++ [callback]) stream (callbacks s)) s).

(** [now_ms] is the value of [int(time.time() * 1000)] read at line 124. *)
Definition subscribe (streams : list string) (callback : Callable)
    (is_private : bool) (now_ms : Z) : M unit :=
  for_each streams (register_callback callback);;
  let subscribe_data : gmap string json :=
    {[ "method" := JStr "SUBSCRIBE"; "params" := JArr (JStr <$> streams) ]} in
  subscribe_data ←
    (if is_private then
       let timestamp := now_ms in
       auth_data ← _generate_signature streams timestamp default_window;
       k ← dict_getitem auth_data "api-key";
       s ← dict_getitem auth_data "signature";
       t ← dict_getitem auth_data "timestamp";
       w ← dict_getitem auth_data "window";
       mret (<["signature" := JArr [JStr k; JStr s; JStr t; JStr w]]> subscribe_data)
     else mret subscribe_data);
  ws_send (json_dumps (JObj subscribe_data)).

(** Lines 151-152, the body of the removal loop. *)
Definition unregister (stream : string) : M unit :=
  self ← get;
  if bool_decide (is_Some (callbacks self !! stream)) then
    modify (λ s, set_callbacks (delete stream (callbacks s)) s)
  else mret tt.

Definition unsubscribe (streams : list string) : M unit :=
  let unsubscribe_data : gmap string json :=
    {[ "method" := JStr "UNSUBSCRIBE"; "params" := JArr (JStr <$> streams) ]} in
  ws_send (json_dumps (JObj unsubscribe_data));;
  for_each streams unregister.

Definition close : M unit :=
  self ← get;
  match ws self with
  | Some _ => ws_close
  | None => mret tt
  end.

(** *** The transport thread

    What [run_forever] reports to the callbacks of the current app: the
    socket connected, a text frame arrived, an error was reported, the
    connection closed. *)
Inductive transport_event : Type :=
| Opened
| Frame (message : string)
| Errored (error : exn)
| Closed.

Definition set_sock (b : bool) : M unit :=
  modify (λ s, set_ws ((λ app, {| url := url app; sock := b |}) <$> ws s) s).

Definition deliver (ev : transport_event) : M unit :=
  match ev with
  | Opened => set_sock true;; on_open
  | Frame message => on_message message
  | Errored error => on_error error
  | Closed => set_sock false;; on_close
  end.

End Client.

(** ** Reading a trace *)

(** The handler invocations of a trace, in order. *)
Definition calls (tr : list event) : list (Callable * json) :=
  omap (λ ev, match ev with Call c a => Some (c, a) | _ => None end) tr.

(** The payloads handed to [ws.send], in order. *)
Definition sends (tr : list event) : list string :=
  omap (λ ev, match ev with Send data => Some data | _ => None end) tr.

(** The endpoints of the sessions started, in order. *)
Definition sessions (tr : list event) : list string :=
  omap (λ ev, match ev with ThreadStart u => Some u | _ => None end) tr.

(** The registry after the registration loop of [subscribe]. *)
Definition register1 (callback : Callable) (cbs : gmap string (list Callable))
    (stream : string) : gmap string (list Callable) :=
  <[stream := default [] (cbs !! stream) ++ [callback]]> cbs.

Definition registered (callback : Callable) (streams : list string)
    (cbs : gmap string (list Callable)) : gmap string (list Callable) :=
  foldl (register1 callback) cbs streams.

(** The registry after the removal loop of [unsubscribe]. *)
Definition unregistered (streams : list string)
    (cbs : gmap string (list Callable)) : gmap string (list Callable) :=
  foldl (λ m stream, delete stream m) cbs streams.

(** The two wire messages. *)
Definition subscribe_message (streams : list string) : gmap string json :=
  {[ "method" := JStr "SUBSCRIBE"; "params" := JArr (JStr <$> streams) ]}.

Definition unsubscribe_message (streams : list string) : gmap string json :=
  {[ "method" := JStr "UNSUBSCRIBE"; "params" := JArr (JStr <$> streams) ]}.

(** The effects of one reconnection from [on_close]. *)
Definition reconnection (endpoint : string) : list event :=
  [Stdout "WebSocket connection closed"; Sleep 5; ThreadStart endpoint].

(** The guarded body of the dispatch loop of [on_message]. *)
Definition dispatch_body (data : json) (callback : Callable) : M unit :=
  arg ← getitem data "data"; call callback arg.

(** How many times [stream] is listed. *)
Definition occurrences (stream : string) (streams : list string) : nat :=
  length (filter (λ x, x = stream) streams).

(** The app that [_connect] installs. *)
Definition fresh_app (self : WebSocketClient) : WebSocketApp :=
  {| url := base_url self; sock := false |}.

(** ** A concrete environment

    An instance of [Externals] and a few handlers and clients, used to
    evaluate the methods on explicit inputs. *)
Module Sample.

Definition dq : string := String (Ascii.ascii_of_nat 34) EmptyString.
Definition quoted (s : string) : string := dq +:+ s +:+ dq.

(** The text [{"stream": "<name>", "data": <n>}]. *)
Definition frame (name : string) (n : Z) : string :=
  "{" +:+ quoted "stream" +:+ ": " +:+ quoted name +:+ ", " +:+
  quoted "data" +:+ ": " +:+ str n +:+ "}".

Definition frame_fields (name : string) (n : Z) : gmap string json :=
  {[ "stream" := JStr name; "data" := JInt n ]}.

Definition frame_value (name : string) (n : Z) : json :=
  JObj (frame_fields name n).

(** A decoder for the frames of two stream names; every other text is
    rejected. *)
Definition loads (message : string) : option json :=
  if String.eqb message (frame "A" 7) then Some (frame_value "A" 7)
  else if String.eqb message (frame EmptyString 7) then Some (frame_value EmptyString 7)
  else if String.eqb message "[]" then Some (JArr [])
  else None.

Fixpoint dumps_strs (l : list json) : string :=
  match l with
  | [] => EmptyString
  | JStr s :: l' =>
      match l' with
      | [] => quoted s
      | _ :: _ => quoted s +:+ ", " +:+ dumps_strs l'
      end
  | _ :: l' => dumps_strs l'
  end.

Definition dumps_field (m : gmap string json) (key : string) : list string :=
  match m !! key with
  | Some (JStr s) => [quoted key +:+ ": " +:+ quoted s]
  | Some (JArr l) => [quoted key +:+ ": [" +:+ dumps_strs l +:+ "]"]
  | _ => []
  end.

(** An encoder for the messages the client builds. *)
Definition dumps (v : json) : string :=
  match v with
  | JObj m =>
      "{" +:+ String.concat ", "
        (dumps_field m "method" ++ dumps_field m "params" ++ dumps_field m "signature")
      +:+ "}"
  | _ => "null"
  end.

Definition externals : Externals :=
  {| json_loads := loads;
     json_dumps := dumps |}.
#[local] Existing Instance externals.

Definition h1 : Callable := {| fn_name := "h1"; fn_body := λ _, Returns |}.
Definition h2 : Callable := {| fn_name := "h2"; fn_body := λ _, Returns |}.
Definition h_bad : Callable :=
  {| fn_name := "h_bad"; fn_body := λ _, Raises (OtherException "ValueError") |}.

(** The app of a client whose socket is connected. *)
Definition open_app : WebSocketApp :=
  {| url := "wss://ws.backpack.exchange"; sock := true |}.

(** [WebSocketClient()] *)
Definition anonymous : WebSocketClient := after (__init__ None None).

(** [WebSocketClient()] once its socket is connected. *)
Definition connected : WebSocketClient := after (deliver Opened anonymous).

(** [WebSocketClient("key", "secret")] once its socket is connected. *)
Definition authenticated : WebSocketClient :=
  after (deliver Opened (after (__init__ (Some "key") (Some "secret")))).

(** The connected anonymous client after [subscribe(["A"], h1)]. *)
Definition subscribed : WebSocketClient :=
  after (subscribe ["A"] h1 false 1 connected).

(** The same after [subscribe(["A"], h_bad)] and [subscribe(["A"], h2)]. *)
Definition crowded : WebSocketClient :=
  after (subscribe ["A"] h2 false 3 (after (subscribe ["A"] h_bad false 2 subscribed))).

(** A private [subscribe] on the anonymous client. *)
Definition rejected : run unit :=
  subscribe ["A"; "B"] h1 true 1700000000000 anonymous.

End Sample.

(** ** Callers

    What can happen to a client between two observations: a call of one of
    its public methods, or an event of the transport thread.  An exception
    raised by a call goes to its caller; the client stays as the call left
    it. *)
Inductive action : Type :=
| DoSubscribe (streams : list string) (callback : Callable) (is_private : bool)
    (now_ms : Z)
| DoUnsubscribe (streams : list string)
| DoClose
| Transport (ev : transport_event).

Section Driver.
Context `{Externals}.

Definition perform (a : action) : M unit :=
  match a with
  | DoSubscribe streams callback is_private now_ms =>
      subscribe streams callback is_private now_ms
  | DoUnsubscribe streams => unsubscribe streams
  | DoClose => close
  | Transport ev => deliver ev
  end.

(** The client after a sequence of actions. *)
Definition after_all (acts : list action) (self : WebSocketClient) : WebSocketClient :=
  foldl (λ s a, after (perform a s)) self acts.

End Driver.

(** Whether [close()] has been called on the current session: set by a
    call of [close], cleared by the close event that ends the session. *)
Definition explicitly_closed (acts : list action) : bool :=
  foldl (λ flag a,
           match a with
           | DoClose => true
           | Transport Closed => false
           | _ => flag
           end) false acts.

(** How [run_forever] ends a session: a close is reported to [on_close]; a
    transport error is reported to [on_error], after which the session is
    torn down and its close reported to [on_close]. *)
Inductive disconnect : Type :=
| ConnectionClosed
| TransportError (error : exn).

Definition report (d : disconnect) : list transport_event :=
  match d with
  | ConnectionClosed => [Closed]
  | TransportError error => [Errored error; Closed]
  end.

(** What the client does on one disconnect. *)
Definition recovery (endpoint : string) (d : disconnect) : list event :=
  match d with
  | ConnectionClosed => []
  | TransportError error => [StdoutExn "WebSocket error: " error]
  end ++ [Stdout "WebSocket connection closed"; Sleep 5; ThreadStart endpoint].

(** Every entry of the registry holds at least one handler. *)
Definition no_empty_entry (cbs : gmap string (list Callable)) : Prop :=
  ∀ stream l, cbs !! stream = Some l → l ≠ [].

(** How many close events a sequence of transport events holds. *)
Definition closes (evs : list transport_event) : nat :=
  length (omap (λ ev, match ev with Closed => Some tt | _ => None end) evs).

(** The endpoint set by [__init__]. *)
Definition endpoint : string := "wss://ws.backpack.exchange".

(** The invariant of a client built by [__init__]. *)
Definition built (k sk : option string) (self : WebSocketClient) : Prop :=
  api_key self = k ∧ secret_key self = sk ∧ base_url self = endpoint ∧
  (∃ connected, ws self = Some {| url := endpoint; sock := connected |}) ∧
  no_empty_entry (callbacks self).

(** ** More frames

    A second instance of [Externals], whose decoder knows a frame without
    data and a frame whose stream is a list, and a handler that exits. *)
Module Probe.

(** The text [{"stream": "A"}]. *)
Definition frame_no_data : string :=
  "{" +:+ Sample.quoted "stream" +:+ ": " +:+ Sample.quoted "A" +:+ "}".

Definition fields_no_data : gmap string json := {[ "stream" := JStr "A" ]}.

(** The text [{"stream": ["A"], "data": 7}]. *)
Definition frame_list_stream : string :=
  "{" +:+ Sample.quoted "stream" +:+ ": [" +:+ Sample.quoted "A" +:+ "], " +:+
  Sample.quoted "data" +:+ ": 7}".

Definition fields_list_stream : gmap string json :=
  {[ "stream" := JArr [JStr "A"]; "data" := JInt 7 ]}.

Definition loads (message : string) : option json :=
  if String.eqb message frame_no_data then Some (JObj fields_no_data)
  else if String.eqb message frame_list_stream then Some (JObj fields_list_stream)
  else Sample.loads message.

Definition externals : Externals :=
  {| json_loads := loads;
     json_dumps := Sample.dumps |}.

Definition h_exit : Callable :=
  {| fn_name := "h_exit"; fn_body := λ _, Raises (NonException "SystemExit") |}.

(** A client with a connected socket and [h1, h_exit, h2] under "A". *)
Definition exiting : WebSocketClient :=
  set_callbacks {[ "A" := [Sample.h1; h_exit; Sample.h2] ]} Sample.connected.

(** The anonymous client whose socket is not connected, subscribed to "A". *)
Definition waiting : WebSocketClient :=
  set_callbacks {[ "A" := [Sample.h1] ]} Sample.anonymous.

(** A client with a connected socket and [h1, h2] under "A". *)
Definition paired : WebSocketClient :=
  set_callbacks {[ "A" := [Sample.h1; Sample.h2] ]} Sample.connected.

(** The app of a client whose socket is not connected. *)
Definition idle_app : WebSocketApp :=
  {| url := "wss://ws.backpack.exchange"; sock := false |}.

End Probe.

(** * Properties *)

Ltac step :=
  unfold mbind, M_bind, mret, M_ret, get, modify, emit, raise; cbn.

Ltac run_projections :=
  cbn [result after effects app default from_option id truthy is_Exception].

Ltac unfold_on_message :=
  unfold on_message, try_except, dot_get, in_callbacks, callbacks_getitem;
  unfold mbind, M_bind, get, mret, M_ret, raise, emit.

Section Properties.
Context `{Externals}.

Lemma set_callbacks_id self : set_callbacks (callbacks self) self = self.
Proof. by destruct self. Qed.

(** *** The registration loop *)

Lemma register_callback_run cb stream self :
  register_callback cb stream self =
  mkRun (set_callbacks (register1 cb (callbacks self) stream) self) [] (inl tt).
Proof.
  unfold register_callback, register1. step.
  case_bool_decide as Hin; cbn.
  - destruct Hin as [l Hl]. rewrite Hl. cbn. f_equal.
    unfold set_callbacks; cbn. f_equal.
    apply map_eq; intros k. rewrite lookup_alter, lookup_insert.
    repeat case_decide; subst; try congruence. by rewrite Hl.
  - apply eq_None_not_Some in Hin. rewrite Hin. cbn. f_equal.
    unfold set_callbacks; cbn. f_equal.
    apply map_eq; intros k. rewrite lookup_alter, !lookup_insert.
    repeat case_decide; subst; try congruence; done.
Qed.

Lemma register_loop_run cb streams self :
  for_each streams (register_callback cb) self =
  mkRun (set_callbacks (registered cb streams (callbacks self)) self) [] (inl tt).
Proof.
  revert self. induction streams as [|s streams IH]; intros self.
  - cbn. by rewrite set_callbacks_id.
  - cbn [for_each]. unfold mbind, M_bind.
    rewrite register_callback_run. cbn. rewrite IH. cbn.
    by destruct self.
Qed.

Lemma registered_lookup cb streams cbs stream :
  registered cb streams cbs !! stream =
  match occurrences stream streams with
  | O => cbs !! stream
  | S n => Some (default [] (cbs !! stream) ++ replicate (S n) cb)
  end.
Proof.
  unfold registered, occurrences.
  revert cbs. induction streams as [|x streams IH]; intros cbs; [done|].
  cbn [foldl]. rewrite IH. unfold register1.
  destruct (decide (x = stream)) as [->|Hne].
  - rewrite filter_cons_True by done. rewrite lookup_insert_eq. cbn [length default].
    destruct (length _) as [|n].
    + done.
    + unfold id. by rewrite <- app_assoc.
  - rewrite filter_cons_False by done. by rewrite lookup_insert_ne.
Qed.

(** *** The removal loop *)

Lemma unregister_run stream self :
  unregister stream self =
  mkRun (set_callbacks (delete stream (callbacks self)) self) [] (inl tt).
Proof.
  unfold unregister. step. case_bool_decide as Hin; cbn; [done|].
  apply eq_None_not_Some in Hin. rewrite delete_id by done.
  by rewrite set_callbacks_id.
Qed.

Lemma unregister_loop_run streams self :
  for_each streams unregister self =
  mkRun (set_callbacks (unregistered streams (callbacks self)) self) [] (inl tt).
Proof.
  revert self. induction streams as [|s streams IH]; intros self.
  - cbn. by rewrite set_callbacks_id.
  - cbn [for_each]. unfold mbind, M_bind.
    rewrite unregister_run. cbn. rewrite IH. cbn.
    by destruct self.
Qed.

Lemma unregistered_lookup streams cbs stream :
  unregistered streams cbs !! stream =
  if decide (stream ∈ streams) then None else cbs !! stream.
Proof.
  unfold unregistered.
  revert cbs. induction streams as [|x streams IH]; intros cbs.
  - cbn. case_decide as Hin; [|done]. by apply elem_of_nil in Hin.
  - cbn [foldl]. rewrite IH.
    destruct (decide (stream = x)) as [->|Hne].
    + rewrite lookup_delete_eq.
      destruct (decide (x ∈ streams)), (decide (x ∈ x :: streams));
        try done; exfalso; rewrite elem_of_cons in *; tauto.
    + rewrite lookup_delete_ne by done.
      destruct (decide (stream ∈ streams)), (decide (stream ∈ x :: streams));
        try done; exfalso; rewrite elem_of_cons in *; tauto.
Qed.

(** *** Dispatch *)

Lemma dispatch_body_run m d c self :
  m !! "data" = Some d →
  dispatch_body (JObj m) c self =
  mkRun self [Call c d]
    (match fn_body c d with Returns => inl tt | Raises e => inr e end).
Proof.
  intros Hd. unfold dispatch_body, call. step. rewrite Hd. cbn.
  by destruct (fn_body c d).
Qed.

Lemma dispatch_all_return m d handlers self :
  m !! "data" = Some d →
  Forall (λ c, fn_body c d = Returns) handlers →
  for_each handlers (dispatch_body (JObj m)) self =
  mkRun self ((λ c, Call c d) <$> handlers) (inl tt).
Proof.
  intros Hd Hall. induction Hall as [|c l Hc _ IH]; [done|].
  cbn [for_each]. unfold mbind, M_bind.
  rewrite (dispatch_body_run m d) by done. rewrite Hc. cbn.
  by rewrite IH.
Qed.

Lemma dispatch_raise m d pre h post e self :
  m !! "data" = Some d →
  Forall (λ c, fn_body c d = Returns) pre →
  fn_body h d = Raises e →
  for_each (pre ++ h :: post) (dispatch_body (JObj m)) self =
  mkRun self ((λ c, Call c d) <$> (pre ++ [h])) (inr e).
Proof.
  intros Hd Hall Hh. induction Hall as [|c l Hc _ IH].
  - cbn [app for_each]. unfold mbind, M_bind.
    rewrite (dispatch_body_run m d) by done. by rewrite Hh.
  - cbn [app for_each]. unfold mbind, M_bind.
    rewrite (dispatch_body_run m d) by done. rewrite Hc. cbn.
    by rewrite IH.
Qed.

Lemma dispatch_no_data m handlers self :
  m !! "data" = None →
  handlers ≠ [] →
  for_each handlers (dispatch_body (JObj m)) self =
  mkRun self [] (inr (KeyError "data")).
Proof.
  intros Hd Hne. destruct handlers as [|c l]; [done|].
  cbn [for_each]. unfold mbind at 1, M_bind at 1.
  unfold dispatch_body at 1. step. by rewrite Hd.
Qed.

(** [on_message] on a frame whose stream is registered. *)
Lemma on_message_registered message m s handlers self :
  json_loads message = Some (JObj m) →
  m !! "stream" = Some (JStr s) →
  str_truthy s = true →
  callbacks self !! s = Some handlers →
  on_message message self =
  try_except (for_each handlers (dispatch_body (JObj m)))
    (λ e, emit (StdoutExn "Error processing message: " e)) self.
Proof.
  intros Hm Hs Hne Hl.
  unfold try_except.
  set (r := for_each handlers (dispatch_body (JObj m)) self).
  unfold on_message, try_except, dot_get, in_callbacks, callbacks_getitem.
  unfold mbind, M_bind, get, mret, M_ret.
  rewrite Hm. cbn [result after effects]. rewrite Hs.
  cbn [default from_option id truthy result after effects]. rewrite Hne.
  cbn [result after effects]. rewrite Hl, bool_decide_true by eauto.
  cbn [result after effects app]. rewrite Hl. cbn [result after effects app].
  change (for_each handlers _ self) with r.
  clearbody r. by destruct r as [a tr [[]|e]].
Qed.

(** *** Inbound frames *)

(** Frames that reach no handler. *)
Lemma on_message_dropped (self : WebSocketClient) (message : string) :
  (json_loads message = None ∨
   (∃ m, json_loads message = Some (JObj m) ∧ m !! "stream" = None) ∨
   (∃ m v, json_loads message = Some (JObj m) ∧ m !! "stream" = Some v ∧
           ∀ s, v = JStr s → callbacks self !! s = None)) →
  result (on_message message self) = inl tt ∧
  calls (effects (on_message message self)) = [] ∧
  after (on_message message self) = self.
Proof.
  intros [Hm|[(m & Hm & Hs)|(m & v & Hm & Hs & Hv)]]; unfold_on_message;
    rewrite Hm; run_projections; [done| |].
  - rewrite Hs. run_projections. done.
  - rewrite Hs. run_projections.
    destruct v as [|[]|n|[]|s|[|x l]|o]; run_projections; try done.
    + destruct (n =? 0); run_projections; done.
    + destruct s as [|a s]; cbn [str_truthy]; run_projections; [done|].
      rewrite (Hv _ eq_refl), bool_decide_false by (by intros [??]).
      run_projections. done.
    + destruct (bool_decide (o = ∅)); cbn [negb]; run_projections; done.
Qed.


(** *** Signing *)

Lemma _generate_signature_run streams timestamp window self :
  _generate_signature streams timestamp window self =
  mkRun self []
    (if opt_truthy (api_key self) && opt_truthy (secret_key self) then
       inr (AttributeError "_sign_message")
     else inl ∅).
Proof.
  unfold _generate_signature, _sign_message.
  unfold mbind, M_bind, get, mret, M_ret, raise. cbn [result after effects].
  by destruct (opt_truthy (api_key self)), (opt_truthy (secret_key self)).
Qed.

Lemma ws_send_run data self :
  ws_send data self =
  match ws self with
  | None => mkRun self [] (inr (AttributeError "send"))
  | Some app =>
      if sock app then mkRun self [Send data] (inl tt)
      else mkRun self [] (inr WebSocketConnectionClosedException)
  end.
Proof.
  unfold ws_send. unfold mbind, M_bind, get. cbn [result after effects].
  destruct (ws self) as [[u []]|]; done.
Qed.

Lemma ws_send_after data self : after (ws_send data self) = self.
Proof. rewrite ws_send_run. by destruct (ws self) as [[u []]|]. Qed.

Lemma subscribe_run streams cb is_private now_ms self :
  subscribe streams cb is_private now_ms self =
  let self' := set_callbacks (registered cb streams (callbacks self)) self in
  if is_private then
    if opt_truthy (api_key self) && opt_truthy (secret_key self) then
      mkRun self' [] (inr (AttributeError "_sign_message"))
    else mkRun self' [] (inr (KeyError "api-key"))
  else ws_send (json_dumps (JObj (subscribe_message streams))) self'.
Proof.
  unfold subscribe. unfold mbind at 1, M_bind at 1.
  rewrite register_loop_run. cbn [result after effects app].
  destruct is_private.
  - unfold dict_getitem. unfold mbind, M_bind, mret, M_ret.
    rewrite _generate_signature_run.
    cbn [result after effects app api_key secret_key set_callbacks].
    destruct (opt_truthy (api_key self) && opt_truthy (secret_key self)); [done|].
    rewrite lookup_empty. done.
  - unfold mbind, M_bind, mret, M_ret. cbn [result after effects app]. by destruct (ws_send _ _).
Qed.

Lemma subscribe_callbacks streams cb is_private now_ms self :
  callbacks (after (subscribe streams cb is_private now_ms self)) =
  registered cb streams (callbacks self).
Proof.
  rewrite subscribe_run. cbn zeta.
  destruct is_private; [destruct (_ && _)|]; rewrite ?ws_send_after; done.
Qed.

Lemma unsubscribe_run streams self :
  unsubscribe streams self =
  match ws self with
  | None => mkRun self [] (inr (AttributeError "send"))
  | Some app =>
      if sock app then
        mkRun (set_callbacks (unregistered streams (callbacks self)) self)
          [Send (json_dumps (JObj (unsubscribe_message streams)))] (inl tt)
      else mkRun self [] (inr WebSocketConnectionClosedException)
  end.
Proof.
  unfold unsubscribe. unfold mbind, M_bind. rewrite ws_send_run.
  destruct (ws self) as [[u []]|]; cbn [sock app]; try done.
  by rewrite unregister_loop_run.
Qed.

(** *** The session callbacks *)

Lemma _connect_run self :
  _connect self =
  mkRun (set_ws (Some (fresh_app self)) self) [ThreadStart (base_url self)] (inl tt).
Proof. done. Qed.

Lemma on_close_run self :
  on_close self =
  mkRun (set_ws (Some (fresh_app self)) self) (reconnection (base_url self)) (inl tt).
Proof. done. Qed.

Lemma deliver_Closed_run self :
  deliver Closed self =
  mkRun (set_ws (Some (fresh_app self)) self) (reconnection (base_url self)) (inl tt).
Proof. done. Qed.

Lemma deliver_Opened_run self :
  deliver Opened self =
  mkRun (set_ws ((λ app, {| url := url app; sock := true |}) <$> ws self) self)
    [Stdout "WebSocket connection established"] (inl tt).
Proof. done. Qed.

Lemma for_each_Closed_run n self :
  for_each (replicate n Closed) deliver self =
  mkRun (match n with
         | O => self
         | S _ => set_ws (Some (fresh_app self)) self
         end)
    (concat (replicate n (reconnection (base_url self)))) (inl tt).
Proof.
  revert self. induction n as [|n IH]; intros self; [done|].
  cbn [replicate for_each]. unfold mbind, M_bind.
  rewrite deliver_Closed_run, IH. by destruct n.
Qed.

Lemma occurrences_listed stream streams :
  stream ∈ streams → ∃ n, occurrences stream streams = S n.
Proof.
  unfold occurrences. induction streams as [|x l IH]; intros Hin.
  - by apply elem_of_nil in Hin.
  - destruct (decide (x = stream)) as [->|Hne].
    + rewrite filter_cons_True by done. cbn. eauto.
    + rewrite filter_cons_False by done. apply IH.
      apply elem_of_cons in Hin as [?|?]; [congruence|done].
Qed.

Lemma occurrences_unlisted stream streams :
  stream ∉ streams → occurrences stream streams = O.
Proof.
  unfold occurrences. induction streams as [|x l IH]; intros Hnin; [done|].
  apply not_elem_of_cons in Hnin as [Hne Hnin].
  rewrite filter_cons_False by congruence. by apply IH.
Qed.

(** ** The claims *)

(** C1 (amended): across a connection loss and the reconnect that
    follows, [self.callbacks] is unchanged and a new session is started
    and opened on the same endpoint, but the client sends nothing on it:
    no SUBSCRIBE message is resent for the registered streams. *)
Theorem reconnect_keeps_registry_sends_nothing (self : WebSocketClient) :
  let r := (deliver Closed ;; deliver Opened) self in
  result r = inl tt ∧
  callbacks (after r) = callbacks self ∧
  ws (after r) = Some {| url := base_url self; sock := true |} ∧
  effects r =
    [Stdout "WebSocket connection closed"; Sleep 5; ThreadStart (base_url self);
     Stdout "WebSocket connection established"] ∧
  sends (effects r) = [].
Proof. done. Qed.

(** C2: a private [subscribe] on a client whose [api_key] or [secret_key]
    is missing raises to its caller ([KeyError] on the empty signature
    dict) before [ws.send] is reached: nothing is sent, so no SUBSCRIBE
    message with an empty signature goes out. *)
Theorem private_subscribe_without_credentials_sends_nothing
    (self : WebSocketClient) (streams : list string) (handler : Callable)
    (now_ms : Z) :
  opt_truthy (api_key self) = false ∨ opt_truthy (secret_key self) = false →
  let r := subscribe streams handler true now_ms self in
  result r = inr (KeyError "api-key") ∧
  effects r = [] ∧
  sends (effects r) = [].
Proof.
  intros Hcred r. subst r. rewrite subscribe_run. cbn zeta.
  replace (opt_truthy (api_key self) && opt_truthy (secret_key self)) with false; [done|].
  destruct Hcred as [-> | ->]; [done|]. by rewrite andb_false_r.
Qed.

(** C3 (amended): for a non-empty stream name [A] with no entry yet, after
    [subscribe([A], h1)] then [subscribe([A], h2)] the entry of [A] is
    [h1, h2], and when [h1] returns normally on [d], one frame with stream
    [A] and data [d] invokes [h1] with [d] and then [h2] with [d], each
    exactly once. *)
Theorem subscribe_twice_dispatches_in_order
    (self : WebSocketClient) (A : string) (h1 h2 : Callable) (d : json)
    (message : string) (m : gmap string json) (t1 t2 : Z) :
  callbacks self !! A = None →
  str_truthy A = true →
  fn_body h1 d = Returns →
  json_loads message = Some (JObj m) →
  m !! "stream" = Some (JStr A) →
  m !! "data" = Some d →
  let self1 := after (subscribe [A] h1 false t1 self) in
  let self2 := after (subscribe [A] h2 false t2 self1) in
  callbacks self2 !! A = Some [h1; h2] ∧
  calls (effects (on_message message self2)) = [(h1, d); (h2, d)].
Proof.
  intros Hfresh Hne Hh1 Hm Hs Hd self1 self2.
  assert (callbacks self2 !! A = Some [h1; h2]) as Hl.
  { subst self1 self2. rewrite !subscribe_callbacks.
    unfold registered. cbn [foldl]. unfold register1.
    rewrite lookup_insert_eq, lookup_insert_eq, Hfresh. done. }
  split; [done|].
  rewrite (on_message_registered message m A [h1; h2]) by done.
  unfold try_except. cbn [for_each]. unfold mbind, M_bind.
  rewrite !(dispatch_body_run m d) by done. rewrite Hh1.
  cbn [result after effects app].
  destruct (fn_body h2 d) as [|e]; cbn [result after effects app]; [done|].
  by destruct (is_Exception e).
Qed.

(** C4: with a connected socket, [unsubscribe(streams)] sends exactly one
    UNSUBSCRIBE message and removes the whole entry of every listed
    stream, leaving the others; a later frame for a listed stream invokes
    no handler; and listing streams that have no entry changes nothing
    and raises nothing. *)
Theorem unsubscribe_removes_entries
    (self : WebSocketClient) (streams : list string) (app : WebSocketApp) :
  ws self = Some app →
  sock app = true →
  let r := unsubscribe streams self in
  result r = inl tt ∧
  effects r = [Send (json_dumps (JObj (unsubscribe_message streams)))] ∧
  (∀ stream, callbacks (after r) !! stream =
             if decide (stream ∈ streams) then None else callbacks self !! stream) ∧
  (∀ stream message m,
      stream ∈ streams →
      json_loads message = Some (JObj m) →
      m !! "stream" = Some (JStr stream) →
      calls (effects (on_message message (after r))) = [] ∧
      result (on_message message (after r)) = inl tt) ∧
  ((∀ stream, stream ∈ streams → callbacks self !! stream = None) →
   callbacks (after r) = callbacks self).
Proof.
  intros Hws Hsock r. subst r. rewrite unsubscribe_run, Hws, Hsock.
  cbn [result after effects callbacks set_callbacks].
  assert (∀ stream,
    unregistered streams (callbacks self) !! stream =
    if decide (stream ∈ streams) then None else callbacks self !! stream) as Hlook
    by apply unregistered_lookup.
  split_and!; try done.
  - intros stream message m Hin Hm Hs.
    destruct (on_message_dropped
      (set_callbacks (unregistered streams (callbacks self)) self) message)
      as (Hr & Hc & _); [|done].
    right; right. exists m, (JStr stream). split_and!; try done.
    intros s [= <-]. cbn. rewrite Hlook. by rewrite decide_True.
  - intros Hnone. apply map_eq; intros stream. rewrite Hlook.
    destruct (decide (stream ∈ streams)); [|done]. by rewrite Hnone.
Qed.

(** C5: a frame that is not decodable as JSON, or decodes to an object
    with no "stream" field, or whose "stream" value has no entry in
    [self.callbacks], invokes no handler, and [on_message] returns
    normally with the client unchanged: no exception leaves the
    callback. *)
Theorem on_message_drops_malformed (self : WebSocketClient) (message : string) :
  (json_loads message = None ∨
   (∃ m, json_loads message = Some (JObj m) ∧ m !! "stream" = None) ∨
   (∃ m v, json_loads message = Some (JObj m) ∧ m !! "stream" = Some v ∧
           ∀ s, v = JStr s → callbacks self !! s = None)) →
  result (on_message message self) = inl tt ∧
  calls (effects (on_message message self)) = [] ∧
  after (on_message message self) = self.
Proof. apply on_message_dropped. Qed.

(** C6 (the code at the failing input): [close()] followed by the close
    event it causes runs [on_close] like any other close: after the
    5-second sleep a new session is started on the endpoint. *)
Theorem close_then_close_event_reconnects (self : WebSocketClient) :
  let r := (close ;; deliver Closed) self in
  result r = inl tt ∧
  sessions (effects r) = [base_url self] ∧
  ws (after r) = Some {| url := base_url self; sock := false |} ∧
  ∃ before, effects r = before ++ [Stdout "WebSocket connection closed"; Sleep 5;
                                    ThreadStart (base_url self)].
Proof.
  intros r. subst r. unfold close, ws_close.
  unfold mbind, M_bind, get, modify, emit, mret, M_ret.
  destruct (ws self) as [w|] eqn:Hws; rewrite ?Hws, deliver_Closed_run.
  - split_and!; try done. by exists [AppClose].
  - split_and!; try done. by exists [].
Qed.

(** C7 (the code at the failing input): with both credentials set,
    [_generate_signature] raises [AttributeError] at the call of the
    undefined [self._sign_message] and returns no dict; with a credential
    missing it returns the empty dict without raising.  Either way the
    client is unchanged, there is no effect, and the stream names play no
    part. *)
Theorem generate_signature_raises_with_credentials
    (self : WebSocketClient) (streams : list string) (timestamp window : Z) :
  _generate_signature streams timestamp window self =
    mkRun self []
      match api_key self, secret_key self with
      | Some k, Some sk =>
          if str_truthy k && str_truthy sk then inr (AttributeError "_sign_message")
          else inl ∅
      | _, _ => inl ∅
      end ∧
  (∀ streams', _generate_signature streams' timestamp window self =
               _generate_signature streams timestamp window self).
Proof.
  split; [|intros streams'; by rewrite !_generate_signature_run].
  rewrite _generate_signature_run.
  destruct (api_key self) as [k|], (secret_key self) as [sk|];
    cbn [opt_truthy andb]; try done.
  by destruct (str_truthy k).
Qed.

(** C9: when a private [subscribe] fails for missing credentials, the
    registration loop has already run: the handler has been appended to
    the entry of every listed stream (once per listing), nothing was sent,
    and for a non-empty list the registry differs from the one before the
    call. *)
Theorem failed_private_subscribe_mutates_registry
    (self : WebSocketClient) (streams : list string) (handler : Callable)
    (now_ms : Z) :
  opt_truthy (api_key self) = false ∨ opt_truthy (secret_key self) = false →
  let r := subscribe streams handler true now_ms self in
  result r = inr (KeyError "api-key") ∧
  sends (effects r) = [] ∧
  (∀ stream, stream ∈ streams →
     ∃ n, occurrences stream streams = S n ∧
          callbacks (after r) !! stream =
            Some (default [] (callbacks self !! stream) ++ replicate (S n) handler)) ∧
  (∀ stream, stream ∉ streams →
     callbacks (after r) !! stream = callbacks self !! stream) ∧
  (streams ≠ [] → callbacks (after r) ≠ callbacks self).
Proof.
  intros Hcred r.
  assert (callbacks (after r) = registered handler streams (callbacks self)) as Hcb
    by apply subscribe_callbacks.
  assert (∀ stream, stream ∈ streams →
     ∃ n, occurrences stream streams = S n ∧
          callbacks (after r) !! stream =
            Some (default [] (callbacks self !! stream) ++ replicate (S n) handler))
    as Hin.
  { intros stream [n Hn]%occurrences_listed. exists n. split; [done|].
    by rewrite Hcb, registered_lookup, Hn. }
  split_and!.
  - subst r. rewrite subscribe_run. cbn zeta.
    replace (opt_truthy (api_key self) && opt_truthy (secret_key self)) with false;
      [done|].
    destruct Hcred as [-> | ->]; [done|]. by rewrite andb_false_r.
  - subst r. rewrite subscribe_run. cbn zeta.
    replace (opt_truthy (api_key self) && opt_truthy (secret_key self)) with false;
      [done|].
    destruct Hcred as [-> | ->]; [done|]. by rewrite andb_false_r.
  - done.
  - intros stream Hnin. by rewrite Hcb, registered_lookup, occurrences_unlisted.
  - intros Hne Heq. destruct streams as [|s streams]; [done|].
    destruct (Hin s) as (n & _ & Hl); [left|].
    rewrite Heq in Hl. destruct (callbacks self !! s) as [l|]; [|done].
    cbn in Hl. injection Hl as Hl. apply (f_equal length) in Hl.
    rewrite length_app in Hl. cbn in Hl. lia.
Qed.

(** C10: when a handler raises an [Exception] on a frame, [on_message]
    catches it and returns normally with the client unchanged, and the
    handlers registered after it for that stream are not invoked: the
    invocations are those of the handlers before it and its own. *)
Theorem on_message_handler_raises
    (self : WebSocketClient) (message : string) (m : gmap string json)
    (s : string) (d : json) (pre post : list Callable) (h : Callable) (e : exn) :
  json_loads message = Some (JObj m) →
  m !! "stream" = Some (JStr s) →
  m !! "data" = Some d →
  str_truthy s = true →
  callbacks self !! s = Some (pre ++ h :: post) →
  Forall (λ c, fn_body c d = Returns) pre →
  fn_body h d = Raises e →
  is_Exception e = true →
  result (on_message message self) = inl tt ∧
  after (on_message message self) = self ∧
  effects (on_message message self) =
    ((λ c, Call c d) <$> pre) ++
    [Call h d; StdoutExn "Error processing message: " e] ∧
  calls (effects (on_message message self)) = (λ c, (c, d)) <$> (pre ++ [h]).
Proof.
  intros Hm Hs Hd Hne Hl Hpre Hh He.
  rewrite (on_message_registered message m s (pre ++ h :: post)) by done.
  unfold try_except. rewrite (dispatch_raise m d pre h post e) by done.
  cbn [result after effects]. rewrite He. unfold emit.
  cbn [result after effects]. split_and!; try done.
  - by rewrite fmap_app, <- app_assoc.
  - unfold calls. rewrite omap_app, fmap_app. cbn.
    rewrite app_nil_r. clear. induction pre as [|c l IH]; [done|].
    cbn. by rewrite <- IH.
Qed.

(** *** Outside the claims *)

(** When the socket is not connected, [unsubscribe] raises at [ws.send]
    and the removal loop is not reached. *)
Lemma unsubscribe_on_closed_socket streams self u :
  ws self = Some {| url := u; sock := false |} →
  unsubscribe streams self = mkRun self [] (inr WebSocketConnectionClosedException).
Proof. intros Hws. by rewrite unsubscribe_run, Hws. Qed.

(** What a handler raises outside [Exception] is not caught by
    [on_message]. *)
Lemma on_message_non_exception_escapes message m s d h post tag self :
  json_loads message = Some (JObj m) →
  m !! "stream" = Some (JStr s) →
  m !! "data" = Some d →
  str_truthy s = true →
  callbacks self !! s = Some (h :: post) →
  fn_body h d = Raises (NonException tag) →
  on_message message self = mkRun self [Call h d] (inr (NonException tag)).
Proof.
  intros Hm Hs Hd Hne Hl Hh.
  rewrite (on_message_registered message m s (h :: post)) by done.
  unfold try_except.
  by rewrite (dispatch_raise m d [] h post (NonException tag)).
Qed.

End Properties.

(** * Further properties of the code *)

Section More.
Context `{Externals}.

(** *** Frames, case by case *)

Lemma on_message_undecodable message self :
  json_loads message = None →
  on_message message self =
  mkRun self [StdoutExn "Error processing message: " JSONDecodeError] (inl tt).
Proof. intros Hm. unfold_on_message. by rewrite Hm. Qed.

Lemma on_message_not_dict message v self :
  json_loads message = Some v →
  (∀ m, v ≠ JObj m) →
  on_message message self =
  mkRun self [StdoutExn "Error processing message: " (AttributeError "get")] (inl tt).
Proof.
  intros Hm Hv. unfold_on_message. rewrite Hm.
  destruct v; try done. by destruct (Hv m).
Qed.

Lemma on_message_falsy message m self :
  json_loads message = Some (JObj m) →
  truthy (default JNull (m !! "stream")) = false →
  on_message message self = mkRun self [] (inl tt).
Proof.
  intros Hm Ht. unfold_on_message. rewrite Hm. run_projections.
  by rewrite Ht.
Qed.

Lemma on_message_unhashable message m v self :
  json_loads message = Some (JObj m) →
  m !! "stream" = Some v →
  truthy v = true →
  (∃ l, v = JArr l) ∨ (∃ o, v = JObj o) →
  on_message message self =
  mkRun self [StdoutExn "Error processing message: " (TypeError "unhashable type")]
    (inl tt).
Proof.
  intros Hm Hs Ht Hv. unfold_on_message. rewrite Hm. run_projections.
  rewrite Hs. run_projections. rewrite Ht.
  by destruct Hv as [[l ->]|[o ->]].
Qed.

Lemma on_message_unknown message m v self :
  json_loads message = Some (JObj m) →
  m !! "stream" = Some v →
  truthy v = true →
  (∀ l, v ≠ JArr l) →
  (∀ o, v ≠ JObj o) →
  (∀ s, v = JStr s → callbacks self !! s = None) →
  on_message message self = mkRun self [] (inl tt).
Proof.
  intros Hm Hs Ht Hl Ho Hv. unfold_on_message. rewrite Hm. run_projections.
  rewrite Hs. run_projections. rewrite Ht.
  destruct v as [| | | |s|l|o]; try done.
  - run_projections.
    rewrite (Hv _ eq_refl), bool_decide_false by (by intros [??]). done.
  - by destruct (Hl l).
  - by destruct (Ho o).
Qed.

(** The dispatch loop, whatever the handlers do. *)
Lemma dispatch_loop_shape m l self :
  ∃ tr v,
    for_each l (dispatch_body (JObj m)) self = mkRun self tr v ∧
    sends tr = [] ∧ sessions tr = [] ∧
    (∀ c a, (c, a) ∈ calls tr → c ∈ l) ∧
    (v = inl tt ∨ ∃ e, v = inr e).
Proof.
  destruct (m !! "data") as [d|] eqn:Hd.
  - induction l as [|c l IH].
    + exists [], (inl tt). split_and!; try done; [|by left].
      intros c a Hin. by apply elem_of_nil in Hin.
    + cbn [for_each]. unfold mbind, M_bind.
      rewrite (dispatch_body_run m d) by done.
      destruct (fn_body c d) as [|e].
      * destruct IH as (tr & v & -> & Hsend & Hsess & Hcalls & Hv).
        exists (Call c d :: tr), v. split_and!; try done.
        intros c' a. cbn. rewrite !elem_of_cons. intros [[= -> ->]|Hin]; [by left|].
        right. by apply (Hcalls _ a).
      * exists [Call c d], (inr e). split_and!; try done; [|right; by eexists].
        intros c' a. cbn. rewrite list_elem_of_singleton. intros [= -> ->]. by left.
  - destruct l as [|c l].
    + exists [], (inl tt). split_and!; try done; [|by left].
      intros c a Hin. by apply elem_of_nil in Hin.
    + rewrite dispatch_no_data by done.
      exists [], (inr (KeyError "data")). split_and!; try done; [|right; by eexists].
      intros c' a Hin. by apply elem_of_nil in Hin.
Qed.

(** [on_message], whatever the frame and the handlers. *)
Lemma on_message_shape message self :
  ∃ tr v,
    on_message message self = mkRun self tr v ∧
    sends tr = [] ∧ sessions tr = [] ∧
    (∀ c a, (c, a) ∈ calls tr → ∃ s l, callbacks self !! s = Some l ∧ c ∈ l) ∧
    (v = inl tt ∨ ∃ tag, v = inr (NonException tag)).
Proof.
  assert (∀ tr : list event, tr = [] ∨ (∃ p e, tr = [StdoutExn p e]) →
          sends tr = [] ∧ sessions tr = [] ∧
          (∀ c a, (c, a) ∈ calls tr → ∃ s l, callbacks self !! s = Some l ∧ c ∈ l))
    as Hquiet.
  { intros tr [->|(p & e & ->)]; split_and!; try done;
      intros c a Hin; by apply elem_of_nil in Hin. }
  destruct (json_loads message) as [v|] eqn:Hm.
  2:{ eexists _, _. split; [by apply on_message_undecodable|].
      destruct (Hquiet [StdoutExn "Error processing message: " JSONDecodeError])
        as (? & ? & ?); [right; by eexists _, _|]. split_and!; try done. by left. }
  assert ((∃ m, v = JObj m) ∨ ∀ m, v ≠ JObj m) as [[m ->]|Hno].
  { destruct v; try (by right); left; by eexists. }
  2:{ eexists _, _. split; [by eapply on_message_not_dict|].
      destruct (Hquiet [StdoutExn "Error processing message: " (AttributeError "get")])
        as (? & ? & ?); [right; by eexists _, _|]. split_and!; try done. by left. }
  destruct (truthy (default JNull (m !! "stream"))) eqn:Ht.
  2:{ eexists _, _. split; [by eapply on_message_falsy|].
      destruct (Hquiet []) as (? & ? & ?); [by left|]. split_and!; try done. by left. }
  destruct (m !! "stream") as [v|] eqn:Hs; [|done]. cbn in Ht.
  destruct v as [|b|n|f|s|l|o].
  1-4: eexists _, _; (split; [by eapply on_message_unknown|]);
       destruct (Hquiet []) as (? & ? & ?); [by left|]; split_and!; try done; by left.
  2-3: eexists _, _; (split; [eapply on_message_unhashable; eauto|]);
       destruct (Hquiet [StdoutExn "Error processing message: "
                           (TypeError "unhashable type")])
         as (? & ? & ?); [right; by eexists _, _|]; split_and!; try done; by left.
  destruct (callbacks self !! s) as [l|] eqn:Hl.
  2:{ eexists _, _. split.
      - eapply on_message_unknown; eauto; try done. by intros s' [= <-].
      - destruct (Hquiet []) as (? & ? & ?); [by left|]. split_and!; try done. by left. }
  rewrite (on_message_registered message m s l) by done.
  unfold try_except.
  destruct (dispatch_loop_shape m l self) as (tr & v & -> & Hsend & Hsess & Hcalls & Hv).
  destruct Hv as [->|[e ->]].
  - exists tr, (inl tt). split_and!; try done; [|by left].
    intros c a Hin. exists s, l. split; [done|]. by apply (Hcalls _ a).
  - destruct e as [| | | | | |tag]; cbn [is_Exception emit];
      try (eexists _, _; split; [reflexivity|];
           unfold sends, sessions, calls; rewrite !omap_app; cbn;
           fold (sends tr) (sessions tr) (calls tr);
           rewrite Hsend, Hsess, !app_nil_r; split_and!; try done; [|by left];
           intros c a Hin; exists s, l; split; [done|]; by apply (Hcalls _ a)).
    exists tr, (inr (NonException tag)). split_and!; try done; [|right; by eexists].
    intros c a Hin. exists s, l. split; [done|]. by apply (Hcalls _ a).
Qed.

(** *** Sends and the registry *)

Lemma subscribe_after streams cb is_private now_ms self :
  after (subscribe streams cb is_private now_ms self) =
  set_callbacks (registered cb streams (callbacks self)) self.
Proof.
  rewrite subscribe_run. cbn zeta.
  destruct is_private; [destruct (_ && _)|]; rewrite ?ws_send_after; done.
Qed.

Lemma on_message_after message self : after (on_message message self) = self.
Proof. by destruct (on_message_shape message self) as (tr & v & -> & _). Qed.

Lemma registered_no_empty_entry cb streams cbs :
  no_empty_entry cbs → no_empty_entry (registered cb streams cbs).
Proof.
  intros Hcbs stream l. rewrite registered_lookup.
  destruct (occurrences stream streams) as [|n]; [apply Hcbs|].
  intros [= <-]. destruct (default [] (cbs !! stream)); done.
Qed.

Lemma unregistered_no_empty_entry streams cbs :
  no_empty_entry cbs → no_empty_entry (unregistered streams cbs).
Proof.
  intros Hcbs stream l. rewrite unregistered_lookup.
  destruct (decide (stream ∈ streams)); [done|apply Hcbs].
Qed.

Lemma closes_cons ev evs : closes (ev :: evs) = (closes [ev] + closes evs)%nat.
Proof. by destruct ev. Qed.

(** One transport event. *)
Lemma deliver_shape ev self :
  ∃ self' tr v,
    deliver ev self = mkRun self' tr v ∧
    callbacks self' = callbacks self ∧
    api_key self' = api_key self ∧
    secret_key self' = secret_key self ∧
    base_url self' = base_url self ∧
    sends tr = [] ∧
    (v = inl tt → sessions tr = replicate (closes [ev]) (base_url self)).
Proof.
  destruct ev as [|message|error|].
  - eexists _, _, _. split; [apply deliver_Opened_run|]. done.
  - destruct (on_message_shape message self) as (tr & v & Hrun & Hsend & Hsess & _).
    exists self, tr, v. split_and!; try done.
  - eexists _, _, _. split; [reflexivity|]. done.
  - eexists _, _, _. split; [apply deliver_Closed_run|]. done.
Qed.

Lemma close_run self :
  close self =
  match ws self with
  | Some app =>
      mkRun (set_ws (Some {| url := url app; sock := false |}) self) [AppClose] (inl tt)
  | None => mkRun self [] (inl tt)
  end.
Proof.
  unfold close, ws_close. unfold mbind, M_bind, get, modify, emit, mret, M_ret.
  destruct (ws self) as [app|] eqn:Hws; [|done]. by rewrite Hws.
Qed.

Lemma perform_keeps_built k sk a self :
  built k sk self → built k sk (after (perform a self)).
Proof.
  intros (Hk & Hsk & Hurl & [b Hws] & Hcbs).
  assert (∀ self' c,
    api_key self' = k → secret_key self' = sk → base_url self' = endpoint →
    ws self' = Some {| url := endpoint; sock := c |} →
    no_empty_entry (callbacks self') → built k sk self') as Hbuilt.
  { intros self' c ?????. split_and!; try done. by exists c. }
  destruct a as [streams cb p now|streams| |ev]; cbn [perform].
  - rewrite subscribe_after. apply (Hbuilt _ b); try done.
    exact (registered_no_empty_entry _ _ _ Hcbs).
  - rewrite unsubscribe_run, Hws. destruct b; cbn [sock after].
    + apply (Hbuilt _ true); try done.
      exact (unregistered_no_empty_entry _ _ Hcbs).
    + by apply (Hbuilt _ false).
  - rewrite close_run, Hws. by apply (Hbuilt _ false).
  - destruct ev as [|message|error|].
    + rewrite deliver_Opened_run, Hws. cbn. by apply (Hbuilt _ true).
    + cbn [deliver]. rewrite on_message_after. by apply (Hbuilt _ b).
    + cbn. by apply (Hbuilt _ b).
    + rewrite deliver_Closed_run. cbn. apply (Hbuilt _ false); try done.
      cbn. unfold fresh_app. by rewrite Hurl.
Qed.

Lemma after_all_keeps_built k sk acts self :
  built k sk self → built k sk (after_all acts self).
Proof.
  unfold after_all. revert self. induction acts as [|a acts IH]; intros self Hb; [done|].
  cbn [foldl]. apply IH. by apply perform_keeps_built.
Qed.

Lemma registered_differs cb streams cbs :
  streams ≠ [] → registered cb streams cbs ≠ cbs.
Proof.
  intros Hne Heq. destruct streams as [|s streams]; [done|].
  destruct (occurrences_listed s (s :: streams)) as [n Hn]; [left|].
  assert (registered cb (s :: streams) cbs !! s = cbs !! s) as Hl by by rewrite Heq.
  rewrite registered_lookup, Hn in Hl.
  destruct (cbs !! s) as [l|]; [|done].
  cbn in Hl. injection Hl as Hl. apply (f_equal length) in Hl.
  rewrite length_app in Hl. cbn in Hl. lia.
Qed.

(** ** Beyond the claims *)

(** X1: [WebSocketClient(api_key, secret_key)] starts one session thread on
    the fixed endpoint and returns with an empty registry and a socket that
    is not connected yet; a public [subscribe] made before the open event
    raises at [ws.send] and sends nothing, although the handler is already
    registered. *)
Theorem subscribe_right_after_init
    (k sk : option string) (streams : list string) (cb : Callable) (now_ms : Z) :
  __init__ k sk =
    mkRun {| ws := Some {| url := "wss://ws.backpack.exchange"; sock := false |};
             api_key := k; secret_key := sk;
             base_url := "wss://ws.backpack.exchange"; callbacks := ∅ |}
      [ThreadStart "wss://ws.backpack.exchange"] (inl tt) ∧
  result (subscribe streams cb false now_ms (after (__init__ k sk))) =
    inr WebSocketConnectionClosedException ∧
  effects (subscribe streams cb false now_ms (after (__init__ k sk))) = [] ∧
  ∀ stream,
    callbacks (after (subscribe streams cb false now_ms (after (__init__ k sk))))
      !! stream =
    match occurrences stream streams with
    | O => None
    | S n => Some (replicate (S n) cb)
    end.
Proof.
  split; [done|]. split_and!.
  - rewrite subscribe_run. cbn zeta. by rewrite ws_send_run.
  - rewrite subscribe_run. cbn zeta. by rewrite ws_send_run.
  - intros stream. rewrite subscribe_after. cbn [callbacks set_callbacks].
    rewrite registered_lookup.
    change (callbacks (after (__init__ k sk))) with (∅ : gmap string (list Callable)).
    rewrite lookup_empty. by destruct (occurrences stream streams).
Qed.

(** X2: with a connected socket, a public [subscribe] returns normally,
    sends exactly one message, the SUBSCRIBE of the streams in the order
    given and without a signature field, and appends the handler to each
    stream's entry once per listing, leaving the other entries alone. *)
Theorem public_subscribe_sends_one_message
    (self : WebSocketClient) (app : WebSocketApp) (streams : list string)
    (cb : Callable) (now_ms : Z) :
  ws self = Some app →
  sock app = true →
  result (subscribe streams cb false now_ms self) = inl tt ∧
  effects (subscribe streams cb false now_ms self) =
    [Send (json_dumps (JObj {[ "method" := JStr "SUBSCRIBE";
                               "params" := JArr (JStr <$> streams) ]}))] ∧
  ∀ stream,
    callbacks (after (subscribe streams cb false now_ms self)) !! stream =
    match occurrences stream streams with
    | O => callbacks self !! stream
    | S n => Some (default [] (callbacks self !! stream) ++ replicate (S n) cb)
    end.
Proof.
  intros Hws Hsock. rewrite subscribe_run. cbn zeta. rewrite ws_send_run.
  cbn [ws set_callbacks]. rewrite Hws, Hsock. split_and!; try done.
  intros stream. cbn [after callbacks set_callbacks]. by rewrite registered_lookup.
Qed.

(** X3: with both credentials set, a private [subscribe] never reaches
    [ws.send]: the [AttributeError] of the undefined [self._sign_message]
    goes to the caller and nothing is sent, whether or not the socket is
    connected; the handler has already been appended to every listed
    entry. *)
Theorem private_subscribe_with_credentials_raises
    (self : WebSocketClient) (streams : list string) (cb : Callable) (now_ms : Z) :
  opt_truthy (api_key self) = true →
  opt_truthy (secret_key self) = true →
  result (subscribe streams cb true now_ms self) =
    inr (AttributeError "_sign_message") ∧
  effects (subscribe streams cb true now_ms self) = [] ∧
  ∀ stream,
    callbacks (after (subscribe streams cb true now_ms self)) !! stream =
    match occurrences stream streams with
    | O => callbacks self !! stream
    | S n => Some (default [] (callbacks self !! stream) ++ replicate (S n) cb)
    end.
Proof.
  intros Hk Hsk. rewrite subscribe_run. cbn zeta. rewrite Hk, Hsk.
  split_and!; try done.
  intros stream. cbn [after callbacks set_callbacks andb].
  by rewrite registered_lookup.
Qed.

(** X4: when the socket is not connected, a public [subscribe] raises
    [WebSocketConnectionClosedException] at [ws.send] and sends nothing, yet
    the registration loop has run: the handler is in every listed entry,
    and for a non-empty list the registry has changed. *)
Theorem subscribe_on_closed_socket_registers
    (self : WebSocketClient) (app : WebSocketApp) (streams : list string)
    (cb : Callable) (now_ms : Z) :
  ws self = Some app →
  sock app = false →
  result (subscribe streams cb false now_ms self) =
    inr WebSocketConnectionClosedException ∧
  effects (subscribe streams cb false now_ms self) = [] ∧
  (∀ stream,
     callbacks (after (subscribe streams cb false now_ms self)) !! stream =
     match occurrences stream streams with
     | O => callbacks self !! stream
     | S n => Some (default [] (callbacks self !! stream) ++ replicate (S n) cb)
     end) ∧
  (streams ≠ [] →
   callbacks (after (subscribe streams cb false now_ms self)) ≠ callbacks self).
Proof.
  intros Hws Hsock.
  rewrite subscribe_after. cbn [callbacks set_callbacks].
  split_and!.
  - rewrite subscribe_run. cbn zeta. rewrite ws_send_run. cbn [ws set_callbacks].
    by rewrite Hws, Hsock.
  - rewrite subscribe_run. cbn zeta. rewrite ws_send_run. cbn [ws set_callbacks].
    by rewrite Hws, Hsock.
  - intros stream. by rewrite registered_lookup.
  - apply registered_differs.
Qed.

(** X5: an empty stream list is not rejected: with a connected socket,
    [subscribe([], cb)] and [unsubscribe([])] each send one message with an
    empty params list and leave the client as it was. *)
Theorem empty_stream_list_is_sent
    (self : WebSocketClient) (app : WebSocketApp) (cb : Callable) (now_ms : Z) :
  ws self = Some app →
  sock app = true →
  subscribe [] cb false now_ms self =
    mkRun self
      [Send (json_dumps (JObj {[ "method" := JStr "SUBSCRIBE"; "params" := JArr [] ]}))]
      (inl tt) ∧
  unsubscribe [] self =
    mkRun self
      [Send (json_dumps (JObj {[ "method" := JStr "UNSUBSCRIBE"; "params" := JArr [] ]}))]
      (inl tt).
Proof.
  intros Hws Hsock. split.
  - rewrite subscribe_run. cbn zeta. rewrite ws_send_run. cbn [ws set_callbacks].
    rewrite Hws, Hsock. unfold registered. cbn [foldl]. by rewrite set_callbacks_id.
  - rewrite unsubscribe_run, Hws, Hsock. unfold unregistered. cbn [foldl].
    by rewrite set_callbacks_id.
Qed.

(** X6: a stream listed several times in one [subscribe] gets the handler
    once per listing: for a non-empty stream name without an entry before
    the call and a handler that returns normally, a frame for that stream
    invokes the handler as many times as the name is listed (not at all when
    it is not listed), whether or not the send succeeded. *)
Theorem handler_invoked_once_per_listing
    (self : WebSocketClient) (A : string) (streams : list string) (h : Callable)
    (is_private : bool) (now_ms : Z) (message : string) (m : gmap string json)
    (d : json) :
  callbacks self !! A = None →
  str_truthy A = true →
  fn_body h d = Returns →
  json_loads message = Some (JObj m) →
  m !! "stream" = Some (JStr A) →
  m !! "data" = Some d →
  calls (effects (on_message message
                    (after (subscribe streams h is_private now_ms self)))) =
    replicate (occurrences A streams) (h, d).
Proof.
  intros Hfresh Hne Hh Hm Hs Hd.
  assert (callbacks (after (subscribe streams h is_private now_ms self)) !! A =
          match occurrences A streams with
          | O => None
          | S n => Some (replicate (S n) h)
          end) as Hl.
  { rewrite subscribe_callbacks, registered_lookup, Hfresh.
    by destruct (occurrences A streams). }
  destruct (occurrences A streams) as [|n].
  - rewrite (on_message_unknown message m (JStr A)); try done.
    by intros s [= <-].
  - rewrite (on_message_registered message m A (replicate (S n) h)) by done.
    unfold try_except. rewrite (dispatch_all_return m d).
    + unfold calls. generalize (S n). intros k. induction k as [|k IH]; [done|].
      cbn. by rewrite <- IH.
    + done.
    + by apply Forall_replicate.
Qed.

(** X7: a frame for a registered, non-empty stream name whose handlers all
    return normally invokes each handler of the entry once, in registration
    order, with the frame's data; nothing is printed and the client is
    unchanged. *)
Theorem on_message_dispatches_in_order
    (self : WebSocketClient) (message : string) (m : gmap string json)
    (s : string) (d : json) (handlers : list Callable) :
  json_loads message = Some (JObj m) →
  m !! "stream" = Some (JStr s) →
  m !! "data" = Some d →
  str_truthy s = true →
  callbacks self !! s = Some handlers →
  Forall (λ c, fn_body c d = Returns) handlers →
  on_message message self = mkRun self ((λ c, Call c d) <$> handlers) (inl tt).
Proof.
  intros Hm Hs Hd Hne Hl Hall.
  rewrite (on_message_registered message m s handlers) by done.
  unfold try_except. by rewrite (dispatch_all_return m d).
Qed.

(** X8: a frame for a registered stream that has no "data" field invokes no
    handler: the [KeyError] is raised before the first call, printed, and
    [on_message] returns normally. *)
Theorem on_message_without_data
    (self : WebSocketClient) (message : string) (m : gmap string json)
    (s : string) (handlers : list Callable) :
  json_loads message = Some (JObj m) →
  m !! "stream" = Some (JStr s) →
  m !! "data" = None →
  str_truthy s = true →
  callbacks self !! s = Some handlers →
  handlers ≠ [] →
  on_message message self =
    mkRun self [StdoutExn "Error processing message: " (KeyError "data")] (inl tt).
Proof.
  intros Hm Hs Hd Hne Hl Hnil.
  rewrite (on_message_registered message m s handlers) by done.
  unfold try_except. by rewrite dispatch_no_data.
Qed.

(** X9: a frame that decodes to something other than an object (a list, a
    string, a number, null) is dropped with a printed [AttributeError]: no
    handler is invoked and the client is unchanged. *)
Theorem on_message_rejects_non_objects
    (self : WebSocketClient) (message : string) (v : json) :
  json_loads message = Some v →
  (∀ m, v ≠ JObj m) →
  on_message message self =
    mkRun self [StdoutExn "Error processing message: " (AttributeError "get")]
      (inl tt).
Proof. apply on_message_not_dict. Qed.

(** X10: a frame whose "stream" value is a non-empty list or a non-empty
    object is dropped with a printed [TypeError] (the value is unhashable),
    whatever the registry holds. *)
Theorem on_message_rejects_unhashable_stream
    (self : WebSocketClient) (message : string) (m : gmap string json) (v : json) :
  json_loads message = Some (JObj m) →
  m !! "stream" = Some v →
  (∃ x l, v = JArr (x :: l)) ∨ (∃ o, v = JObj o ∧ o ≠ ∅) →
  on_message message self =
    mkRun self [StdoutExn "Error processing message: " (TypeError "unhashable type")]
      (inl tt).
Proof.
  intros Hm Hs Hv. apply (on_message_unhashable message m v); try done.
  - destruct Hv as [(x & l & ->)|(o & -> & Ho)]; [done|].
    cbn. by rewrite bool_decide_false.
  - destruct Hv as [(x & l & ->)|(o & -> & Ho)]; [left|right]; by eexists.
Qed.

(** X11: a frame whose "stream" value is missing or falsy (null, false, 0,
    0.0, the empty string, list or object) is dropped silently, nothing is
    printed, even when the registry has an entry under the empty name. *)
Theorem on_message_ignores_falsy_stream
    (self : WebSocketClient) (message : string) (m : gmap string json) :
  json_loads message = Some (JObj m) →
  truthy (default JNull (m !! "stream")) = false →
  on_message message self = mkRun self [] (inl tt).
Proof. apply on_message_falsy. Qed.

(** X12: whatever the frame, the registry and the handlers, [on_message]
    leaves the client unchanged, sends nothing, starts no session, invokes
    only handlers that are registered, and either returns normally or lets
    through what a handler raised outside [Exception]. *)
Theorem on_message_is_contained (self : WebSocketClient) (message : string) :
  after (on_message message self) = self ∧
  sends (effects (on_message message self)) = [] ∧
  sessions (effects (on_message message self)) = [] ∧
  (∀ c a, (c, a) ∈ calls (effects (on_message message self)) →
          ∃ s l, callbacks self !! s = Some l ∧ c ∈ l) ∧
  (result (on_message message self) = inl tt ∨
   ∃ tag, result (on_message message self) = inr (NonException tag)).
Proof.
  by destruct (on_message_shape message self) as (tr & v & -> & ? & ? & ? & ?).
Qed.

(** X13: what a handler raises outside [Exception] ([SystemExit],
    [KeyboardInterrupt]) is not caught: it leaves [on_message], nothing is
    printed, and the handlers after it are not invoked. *)
Theorem on_message_lets_non_exceptions_through
    (self : WebSocketClient) (message : string) (m : gmap string json)
    (s : string) (d : json) (pre post : list Callable) (h : Callable) (tag : string) :
  json_loads message = Some (JObj m) →
  m !! "stream" = Some (JStr s) →
  m !! "data" = Some d →
  str_truthy s = true →
  callbacks self !! s = Some (pre ++ h :: post) →
  Forall (λ c, fn_body c d = Returns) pre →
  fn_body h d = Raises (NonException tag) →
  on_message message self =
    mkRun self ((λ c, Call c d) <$> (pre ++ [h])) (inr (NonException tag)).
Proof.
  intros Hm Hs Hd Hne Hl Hpre Hh.
  rewrite (on_message_registered message m s (pre ++ h :: post)) by done.
  unfold try_except.
  by rewrite (dispatch_raise m d pre h post (NonException tag)).
Qed.

(** X14: when the socket is not connected, [unsubscribe] raises at
    [ws.send] before the removal loop: nothing is sent and the client,
    registry included, is unchanged. *)
Theorem unsubscribe_on_closed_socket_keeps_registry
    (self : WebSocketClient) (app : WebSocketApp) (streams : list string) :
  ws self = Some app →
  sock app = false →
  unsubscribe streams self = mkRun self [] (inr WebSocketConnectionClosedException).
Proof. intros Hws Hsock. by rewrite unsubscribe_run, Hws, Hsock. Qed.

(** X15: with a connected socket, [subscribe(streams, cb)] followed by
    [unsubscribe(streams)] leaves no entry for any listed stream, handlers
    registered earlier included, and keeps the other entries; when none of
    the streams had an entry before, the client is back where it started. *)
Theorem subscribe_then_unsubscribe
    (self : WebSocketClient) (app : WebSocketApp) (streams : list string)
    (cb : Callable) (is_private : bool) (now_ms : Z) :
  ws self = Some app →
  sock app = true →
  (∀ stream,
     callbacks (after (unsubscribe streams
                         (after (subscribe streams cb is_private now_ms self))))
       !! stream =
     if decide (stream ∈ streams) then None else callbacks self !! stream) ∧
  ((∀ stream, stream ∈ streams → callbacks self !! stream = None) →
   after (unsubscribe streams (after (subscribe streams cb is_private now_ms self))) =
   self).
Proof.
  intros Hws Hsock.
  assert (∀ stream,
     callbacks (after (unsubscribe streams
                         (after (subscribe streams cb is_private now_ms self))))
       !! stream =
     if decide (stream ∈ streams) then None else callbacks self !! stream) as Hlook.
  { intros stream. rewrite subscribe_after, unsubscribe_run.
    cbn [ws set_callbacks]. rewrite Hws, Hsock. cbn [after callbacks set_callbacks].
    rewrite unregistered_lookup.
    destruct (decide (stream ∈ streams)) as [Hin|Hnin]; [done|].
    by rewrite registered_lookup, occurrences_unlisted. }
  split; [done|]. intros Hnone.
  assert (callbacks (after (unsubscribe streams
                         (after (subscribe streams cb is_private now_ms self)))) =
          callbacks self) as Hcb.
  { apply map_eq. intros stream. rewrite Hlook.
    destruct (decide (stream ∈ streams)); [|done]. by rewrite Hnone. }
  revert Hcb. rewrite subscribe_after, unsubscribe_run.
  cbn [ws set_callbacks]. rewrite Hws, Hsock. cbn [after callbacks set_callbacks].
  intros ->. by destruct self.
Qed.

(** X16: [close()] calls [ws.close()] once and changes nothing but the
    socket, which is no longer connected: until a reconnect every
    [subscribe], public or private, and every [unsubscribe] raises and
    sends nothing (a public [subscribe] and [unsubscribe] raise
    [WebSocketConnectionClosedException]); a second [close()] calls
    [ws.close()] again. *)
Theorem close_disconnects
    (self : WebSocketClient) (app : WebSocketApp) :
  ws self = Some app →
  close self =
    mkRun (set_ws (Some {| url := url app; sock := false |}) self) [AppClose] (inl tt) ∧
  callbacks (after (close self)) = callbacks self ∧
  (∀ streams cb is_private now_ms,
     effects (subscribe streams cb is_private now_ms (after (close self))) = [] ∧
     (∃ e, result (subscribe streams cb is_private now_ms (after (close self))) =
           inr e) ∧
     (is_private = false →
      result (subscribe streams cb is_private now_ms (after (close self))) =
        inr WebSocketConnectionClosedException)) ∧
  (∀ streams,
     unsubscribe streams (after (close self)) =
     mkRun (after (close self)) [] (inr WebSocketConnectionClosedException)) ∧
  close (after (close self)) = mkRun (after (close self)) [AppClose] (inl tt).
Proof.
  intros Hws. rewrite close_run, Hws. cbn [after]. split_and!; try done.
  intros streams cb is_private now_ms. rewrite subscribe_run. cbn zeta.
  rewrite ws_send_run. cbn [ws set_ws set_callbacks api_key secret_key].
  destruct is_private.
  - destruct (opt_truthy (api_key self) && opt_truthy (secret_key self));
      split_and!; try done; by eexists.
  - split_and!; try done. by eexists.
Qed.

(** X17: after a close event the client holds a new app whose socket is
    not connected: until the open event [unsubscribe] raises and sends
    nothing; once the open event has come it sends again. *)
Theorem calls_between_close_and_open_fail
    (self : WebSocketClient) (streams : list string) :
  unsubscribe streams (after (deliver Closed self)) =
    mkRun (after (deliver Closed self)) [] (inr WebSocketConnectionClosedException) ∧
  effects (unsubscribe streams (after (deliver Opened (after (deliver Closed self))))) =
    [Send (json_dumps (JObj {[ "method" := JStr "UNSUBSCRIBE";
                               "params" := JArr (JStr <$> streams) ]}))].
Proof. split; by rewrite unsubscribe_run. Qed.

(** X18: whatever the transport reports (opens, frames, errors, closes) and
    in whatever order, the registry, the credentials and the endpoint are
    what they were and nothing is sent; when the run is not cut short by a
    handler, exactly one session is started per close event. *)
Theorem transport_events_never_send
    (self : WebSocketClient) (evs : list transport_event) :
  callbacks (after (for_each evs deliver self)) = callbacks self ∧
  api_key (after (for_each evs deliver self)) = api_key self ∧
  secret_key (after (for_each evs deliver self)) = secret_key self ∧
  base_url (after (for_each evs deliver self)) = base_url self ∧
  sends (effects (for_each evs deliver self)) = [] ∧
  (result (for_each evs deliver self) = inl tt →
   sessions (effects (for_each evs deliver self)) =
   replicate (closes evs) (base_url self)).
Proof.
  revert self. induction evs as [|ev evs IH]; intros self; [done|].
  cbn [for_each]. unfold mbind, M_bind.
  destruct (deliver_shape ev self)
    as (self' & tr & v & -> & Hcb & Hk & Hsk & Hurl & Hsend & Hsess).
  destruct v as [[]|e]; [|done].
  destruct (IH self') as (IHcb & IHk & IHsk & IHurl & IHsend & IHsess).
  destruct (for_each evs deliver self') as [self2 tr2 v2].
  cbn [after effects result] in *.
  split_and!; try congruence.
  - unfold sends in *. by rewrite omap_app, Hsend, IHsend.
  - intros ->. unfold sessions in *.
    by rewrite omap_app, (Hsess eq_refl), (IHsess eq_refl), Hurl,
      (closes_cons ev evs), replicate_add.
Qed.

(** X19: in every state a client can reach from its constructor through
    calls of [subscribe], [unsubscribe] and [close] and transport events,
    in any order and whether or not the calls raised, the credentials and
    the endpoint are those of the constructor, [self.ws] is an app on that
    endpoint (never [None]), and no entry of the registry is an empty
    list. *)
Theorem reachable_clients_are_well_formed
    (k sk : option string) (acts : list action) :
  api_key (after_all acts (after (__init__ k sk))) = k ∧
  secret_key (after_all acts (after (__init__ k sk))) = sk ∧
  base_url (after_all acts (after (__init__ k sk))) = "wss://ws.backpack.exchange" ∧
  (∃ connected,
     ws (after_all acts (after (__init__ k sk))) =
     Some {| url := "wss://ws.backpack.exchange"; sock := connected |}) ∧
  no_empty_entry (callbacks (after_all acts (after (__init__ k sk)))).
Proof.
  apply (after_all_keeps_built k sk acts). split_and!; try done.
  by exists false.
Qed.

(** *** Disconnects *)

Lemma disconnects_run ds self :
  for_each (concat (report <$> ds)) deliver self =
  mkRun (match ds with
         | [] => self
         | _ :: _ => set_ws (Some (fresh_app self)) self
         end)
    (concat (recovery (base_url self) <$> ds)) (inl tt).
Proof.
  revert self. induction ds as [|d ds IH]; intros self; [done|].
  destruct d as [|error]; cbn [fmap list_fmap concat report app for_each];
    unfold mbind, M_bind.
  - rewrite (deliver_Closed_run self), IH. by destruct ds.
  - cbn [deliver]. unfold on_error, emit. rewrite (deliver_Closed_run self), IH.
    by destruct ds.
Qed.

(** C8: for a client built by the constructor and brought anywhere by
    calls and transport events, whose current session has not been closed
    by [close()]: every disconnect, be it a close or a transport error
    (reported to [on_error], then torn down and reported to [on_close]),
    makes the client sleep 5 seconds and then start a new session on the
    endpoint; and however many disconnects follow one another, each gets
    the same 5 seconds and a new session: no backoff, no limit. *)
Theorem disconnects_reconnect_after_fixed_delay
    (k sk : option string) (acts : list action) (ds : list disconnect) :
  explicitly_closed acts = false →
  result (for_each (concat (report <$> ds)) deliver
            (after_all acts (after (__init__ k sk)))) = inl tt ∧
  effects (for_each (concat (report <$> ds)) deliver
             (after_all acts (after (__init__ k sk)))) =
    concat ((λ d,
               match d with
               | ConnectionClosed => []
               | TransportError error => [StdoutExn "WebSocket error: " error]
               end ++
               [Stdout "WebSocket connection closed"; Sleep 5;
                ThreadStart "wss://ws.backpack.exchange"]) <$> ds) ∧
  sessions (effects (for_each (concat (report <$> ds)) deliver
                       (after_all acts (after (__init__ k sk))))) =
    replicate (length ds) "wss://ws.backpack.exchange".
Proof.
  intros _.
  assert (built k sk (after_all acts (after (__init__ k sk))))
    as (_ & _ & Hurl & _ & _).
  { apply after_all_keeps_built. split_and!; try done. by exists false. }
  rewrite disconnects_run, Hurl. cbn [result effects].
  split_and!; try done.
  clear. induction ds as [|d ds IH]; [done|].
  cbn [fmap list_fmap concat length replicate]. unfold sessions in *.
  rewrite omap_app, IH. by destruct d.
Qed.

End More.

(** * The claims on concrete runs *)

#[local] Existing Instance Sample.externals.

(** C2 on the anonymous client. *)
Lemma private_subscribe_without_credentials_sends_nothing_witness :
  (opt_truthy (api_key Sample.anonymous) = false ∨
   opt_truthy (secret_key Sample.anonymous) = false) ∧
  result (subscribe ["A"] Sample.h1 true 1700000000000 Sample.anonymous) =
    inr (KeyError "api-key") ∧
  effects (subscribe ["A"] Sample.h1 true 1700000000000 Sample.anonymous) = [] ∧
  sends (effects (subscribe ["A"] Sample.h1 true 1700000000000 Sample.anonymous)) = [].
Proof.
  split; [left; reflexivity|].
  apply (private_subscribe_without_credentials_sends_nothing
           Sample.anonymous ["A"] Sample.h1 1700000000000).
  left; reflexivity.
Defined.

(** C3 (amended) on stream A with two returning handlers. *)
Lemma subscribe_twice_dispatches_in_order_witness :
  callbacks Sample.connected !! "A" = None ∧
  str_truthy "A" = true ∧
  fn_body Sample.h1 (JInt 7) = Returns ∧
  json_loads (Sample.frame "A" 7) = Some (JObj (Sample.frame_fields "A" 7)) ∧
  Sample.frame_fields "A" 7 !! "stream" = Some (JStr "A") ∧
  Sample.frame_fields "A" 7 !! "data" = Some (JInt 7) ∧
  callbacks (after (subscribe ["A"] Sample.h2 false 2
                      (after (subscribe ["A"] Sample.h1 false 1 Sample.connected))))
    !! "A" = Some [Sample.h1; Sample.h2] ∧
  calls (effects (on_message (Sample.frame "A" 7)
                    (after (subscribe ["A"] Sample.h2 false 2
                              (after (subscribe ["A"] Sample.h1 false 1
                                        Sample.connected)))))) =
    [(Sample.h1, JInt 7); (Sample.h2, JInt 7)].
Proof.
  repeat (split; [reflexivity|]).
  apply (subscribe_twice_dispatches_in_order
           Sample.connected "A" Sample.h1 Sample.h2 (JInt 7) (Sample.frame "A" 7)
           (Sample.frame_fields "A" 7) 1 2);
    reflexivity.
Defined.

(** C4 on a connected client subscribed to A. *)
Lemma unsubscribe_removes_entries_witness :
  ws Sample.subscribed = Some Sample.open_app ∧
  sock Sample.open_app = true ∧
  result (unsubscribe ["A"] Sample.subscribed) = inl tt ∧
  effects (unsubscribe ["A"] Sample.subscribed) =
    [Send (json_dumps (JObj (unsubscribe_message ["A"])))] ∧
  (∀ stream, callbacks (after (unsubscribe ["A"] Sample.subscribed)) !! stream =
             if decide (stream ∈ ["A"]) then None
             else callbacks Sample.subscribed !! stream) ∧
  (∀ stream message m,
      stream ∈ ["A"] →
      json_loads message = Some (JObj m) →
      m !! "stream" = Some (JStr stream) →
      calls (effects (on_message message
                        (after (unsubscribe ["A"] Sample.subscribed)))) = [] ∧
      result (on_message message (after (unsubscribe ["A"] Sample.subscribed))) =
        inl tt) ∧
  ((∀ stream, stream ∈ ["A"] → callbacks Sample.subscribed !! stream = None) →
   callbacks (after (unsubscribe ["A"] Sample.subscribed)) =
   callbacks Sample.subscribed).
Proof.
  split; [reflexivity|]. split; [reflexivity|].
  apply (unsubscribe_removes_entries Sample.subscribed ["A"] Sample.open_app);
    reflexivity.
Defined.

(** C5 on a text that does not decode. *)
Lemma on_message_drops_malformed_witness :
  (json_loads "not json" = None ∨
   (∃ m, json_loads "not json" = Some (JObj m) ∧ m !! "stream" = None) ∨
   (∃ m v, json_loads "not json" = Some (JObj m) ∧ m !! "stream" = Some v ∧
           ∀ s, v = JStr s → callbacks Sample.subscribed !! s = None)) ∧
  result (on_message "not json" Sample.subscribed) = inl tt ∧
  calls (effects (on_message "not json" Sample.subscribed)) = [] ∧
  after (on_message "not json" Sample.subscribed) = Sample.subscribed.
Proof.
  split; [left; reflexivity|].
  apply on_message_drops_malformed. left; reflexivity.
Defined.

(** C9 on the anonymous client and two streams. *)
Lemma failed_private_subscribe_mutates_registry_witness :
  (opt_truthy (api_key Sample.anonymous) = false ∨
   opt_truthy (secret_key Sample.anonymous) = false) ∧
  result (Sample.rejected) = inr (KeyError "api-key") ∧
  sends (effects Sample.rejected) = [] ∧
  (∀ stream, stream ∈ ["A"; "B"] →
     ∃ n, occurrences stream ["A"; "B"] = S n ∧
          callbacks (after Sample.rejected) !! stream =
            Some (default [] (callbacks Sample.anonymous !! stream) ++
                  replicate (S n) Sample.h1)) ∧
  (∀ stream, stream ∉ ["A"; "B"] →
     callbacks (after Sample.rejected) !! stream =
     callbacks Sample.anonymous !! stream) ∧
  (["A"; "B"] ≠ [] → callbacks (after Sample.rejected) ≠ callbacks Sample.anonymous).
Proof.
  split; [left; reflexivity|].
  apply (failed_private_subscribe_mutates_registry
           Sample.anonymous ["A"; "B"] Sample.h1 1700000000000).
  left; reflexivity.
Defined.

(** C10 on three handlers of which the second raises. *)
Lemma on_message_handler_raises_witness :
  json_loads (Sample.frame "A" 7) = Some (JObj (Sample.frame_fields "A" 7)) ∧
  Sample.frame_fields "A" 7 !! "stream" = Some (JStr "A") ∧
  Sample.frame_fields "A" 7 !! "data" = Some (JInt 7) ∧
  str_truthy "A" = true ∧
  callbacks Sample.crowded !! "A" = Some ([Sample.h1] ++ Sample.h_bad :: [Sample.h2]) ∧
  Forall (λ c, fn_body c (JInt 7) = Returns) [Sample.h1] ∧
  fn_body Sample.h_bad (JInt 7) = Raises (OtherException "ValueError") ∧
  is_Exception (OtherException "ValueError") = true ∧
  result (on_message (Sample.frame "A" 7) Sample.crowded) = inl tt ∧
  after (on_message (Sample.frame "A" 7) Sample.crowded) = Sample.crowded ∧
  effects (on_message (Sample.frame "A" 7) Sample.crowded) =
    ((λ c, Call c (JInt 7)) <$> [Sample.h1]) ++
    [Call Sample.h_bad (JInt 7);
     StdoutExn "Error processing message: " (OtherException "ValueError")] ∧
  calls (effects (on_message (Sample.frame "A" 7) Sample.crowded)) =
    (λ c, (c, JInt 7)) <$> ([Sample.h1] ++ [Sample.h_bad]).
Proof.
  assert (Forall (λ c, fn_body c (JInt 7) = Returns) [Sample.h1]) as Hpre
    by (repeat constructor).
  do 5 (split; [reflexivity|]). split; [exact Hpre|]. do 2 (split; [reflexivity|]).
  apply (on_message_handler_raises Sample.crowded (Sample.frame "A" 7)
           (Sample.frame_fields "A" 7) "A" (JInt 7)
           [Sample.h1] [Sample.h2] Sample.h_bad (OtherException "ValueError"));
    try reflexivity.
  exact Hpre.
Defined.

(** ** Where a claim fails on the code *)

(** C1 fails: "A" is registered before the disconnect and the new session
    is open after the reconnect, yet nothing has been sent. *)
Lemma reconnect_resends_nothing_counterexample :
  let r := (deliver Closed ;; deliver Opened) Sample.subscribed in
  callbacks Sample.subscribed !! "A" = Some [Sample.h1] ∧
  ws (after r) = Some {| url := "wss://ws.backpack.exchange"; sock := true |} ∧
  callbacks (after r) !! "A" = Some [Sample.h1] ∧
  sends (effects r) = [].
Proof. vm_compute. repeat split; reflexivity. Qed.

(** C3 fails for the empty stream name, whose frames reach no handler, and
    for a first handler that raises, after which the second is not
    invoked. *)
Lemma subscribe_twice_dispatch_counterexample :
  (let self1 := after (subscribe [EmptyString] Sample.h1 false 1 Sample.connected) in
   let self2 := after (subscribe [EmptyString] Sample.h2 false 2 self1) in
   json_loads (Sample.frame EmptyString 7) =
     Some (JObj {[ "stream" := JStr EmptyString; "data" := JInt 7 ]}) ∧
   callbacks self2 !! EmptyString = Some [Sample.h1; Sample.h2] ∧
   calls (effects (on_message (Sample.frame EmptyString 7) self2)) = []) ∧
  (let self1 := after (subscribe ["A"] Sample.h_bad false 1 Sample.connected) in
   let self2 := after (subscribe ["A"] Sample.h2 false 2 self1) in
   json_loads (Sample.frame "A" 7) =
     Some (JObj {[ "stream" := JStr "A"; "data" := JInt 7 ]}) ∧
   callbacks self2 !! "A" = Some [Sample.h_bad; Sample.h2] ∧
   calls (effects (on_message (Sample.frame "A" 7) self2)) = [(Sample.h_bad, JInt 7)]).
Proof. vm_compute. repeat split; reflexivity. Qed.

(** C6 at the failing input: [close()] on a connected client, then the
    close event: a second session is started. *)
Example close_reconnects_on_sample :
  effects ((close ;; deliver Closed) Sample.connected) =
    [AppClose; Stdout "WebSocket connection closed"; Sleep 5;
     ThreadStart "wss://ws.backpack.exchange"].
Proof. reflexivity. Qed.

(** C7 at the failing input: a client with both credentials. *)
Example generate_signature_on_sample :
  _generate_signature ["account.orderUpdate"] 1700000000000 default_window
    Sample.authenticated =
  mkRun Sample.authenticated [] (inr (AttributeError "_sign_message")).
Proof. reflexivity. Qed.

(** C4 fails while the socket is not connected: in the reconnect window
    [unsubscribe] raises, sends nothing and removes nothing, and a frame
    for the stream still reaches its handler once the session is open. *)
Lemma unsubscribe_without_socket_counterexample :
  callbacks (after (deliver Closed Sample.subscribed)) !! "A" = Some [Sample.h1] ∧
  unsubscribe ["A"] (after (deliver Closed Sample.subscribed)) =
    mkRun (after (deliver Closed Sample.subscribed)) []
      (inr WebSocketConnectionClosedException) ∧
  calls (effects (on_message (Sample.frame "A" 7)
                    (after (deliver Opened
                              (after (unsubscribe ["A"]
                                        (after (deliver Closed Sample.subscribed)))))))) =
    [(Sample.h1, JInt 7)].
Proof. vm_compute. repeat split; reflexivity. Qed.

(** ** The further properties on concrete runs *)

(** X2 on the connected anonymous client. *)
Lemma public_subscribe_sends_one_message_witness :
  ws Sample.connected = Some Sample.open_app ∧
  sock Sample.open_app = true ∧
  result (subscribe ["A"; "B"] Sample.h1 false 1 Sample.connected) = inl tt ∧
  effects (subscribe ["A"; "B"] Sample.h1 false 1 Sample.connected) =
    [Send (json_dumps (JObj {[ "method" := JStr "SUBSCRIBE";
                               "params" := JArr (JStr <$> ["A"; "B"]) ]}))] ∧
  ∀ stream,
    callbacks (after (subscribe ["A"; "B"] Sample.h1 false 1 Sample.connected))
      !! stream =
    match occurrences stream ["A"; "B"] with
    | O => callbacks Sample.connected !! stream
    | S n => Some (default [] (callbacks Sample.connected !! stream) ++
                   replicate (S n) Sample.h1)
    end.
Proof.
  do 2 (split; [reflexivity|]).
  apply (public_subscribe_sends_one_message Sample.connected Sample.open_app);
    reflexivity.
Defined.

(** X3 on the connected client with credentials. *)
Lemma private_subscribe_with_credentials_raises_witness :
  opt_truthy (api_key Sample.authenticated) = true ∧
  opt_truthy (secret_key Sample.authenticated) = true ∧
  result (subscribe ["account.orderUpdate"] Sample.h1 true 1700000000000
            Sample.authenticated) = inr (AttributeError "_sign_message") ∧
  effects (subscribe ["account.orderUpdate"] Sample.h1 true 1700000000000
             Sample.authenticated) = [] ∧
  ∀ stream,
    callbacks (after (subscribe ["account.orderUpdate"] Sample.h1 true 1700000000000
                        Sample.authenticated)) !! stream =
    match occurrences stream ["account.orderUpdate"] with
    | O => callbacks Sample.authenticated !! stream
    | S n => Some (default [] (callbacks Sample.authenticated !! stream) ++
                   replicate (S n) Sample.h1)
    end.
Proof.
  do 2 (split; [reflexivity|]).
  apply (private_subscribe_with_credentials_raises Sample.authenticated);
    reflexivity.
Defined.

(** X4 on the anonymous client before its socket is connected. *)
Lemma subscribe_on_closed_socket_registers_witness :
  ws Sample.anonymous = Some Probe.idle_app ∧
  sock Probe.idle_app = false ∧
  result (subscribe ["A"] Sample.h1 false 1 Sample.anonymous) =
    inr WebSocketConnectionClosedException ∧
  effects (subscribe ["A"] Sample.h1 false 1 Sample.anonymous) = [] ∧
  (∀ stream,
     callbacks (after (subscribe ["A"] Sample.h1 false 1 Sample.anonymous)) !! stream =
     match occurrences stream ["A"] with
     | O => callbacks Sample.anonymous !! stream
     | S n => Some (default [] (callbacks Sample.anonymous !! stream) ++
                    replicate (S n) Sample.h1)
     end) ∧
  (["A"] ≠ [] →
   callbacks (after (subscribe ["A"] Sample.h1 false 1 Sample.anonymous)) ≠
   callbacks Sample.anonymous).
Proof.
  do 2 (split; [reflexivity|]).
  apply (subscribe_on_closed_socket_registers Sample.anonymous Probe.idle_app);
    reflexivity.
Defined.

(** X5 on the connected anonymous client. *)
Lemma empty_stream_list_is_sent_witness :
  ws Sample.connected = Some Sample.open_app ∧
  sock Sample.open_app = true ∧
  subscribe [] Sample.h1 false 1 Sample.connected =
    mkRun Sample.connected
      [Send (json_dumps (JObj {[ "method" := JStr "SUBSCRIBE"; "params" := JArr [] ]}))]
      (inl tt) ∧
  unsubscribe [] Sample.connected =
    mkRun Sample.connected
      [Send (json_dumps (JObj {[ "method" := JStr "UNSUBSCRIBE"; "params" := JArr [] ]}))]
      (inl tt).
Proof.
  do 2 (split; [reflexivity|]).
  apply (empty_stream_list_is_sent Sample.connected Sample.open_app); reflexivity.
Defined.

(** X6 on a list that names "A" twice. *)
Lemma handler_invoked_once_per_listing_witness :
  callbacks Sample.connected !! "A" = None ∧
  str_truthy "A" = true ∧
  fn_body Sample.h1 (JInt 7) = Returns ∧
  json_loads (Sample.frame "A" 7) = Some (JObj (Sample.frame_fields "A" 7)) ∧
  Sample.frame_fields "A" 7 !! "stream" = Some (JStr "A") ∧
  Sample.frame_fields "A" 7 !! "data" = Some (JInt 7) ∧
  calls (effects (on_message (Sample.frame "A" 7)
                    (after (subscribe ["A"; "B"; "A"] Sample.h1 false 1
                              Sample.connected)))) =
    replicate (occurrences "A" ["A"; "B"; "A"]) (Sample.h1, JInt 7).
Proof.
  do 6 (split; [reflexivity|]).
  apply (handler_invoked_once_per_listing Sample.connected "A" ["A"; "B"; "A"]
           Sample.h1 false 1 (Sample.frame "A" 7) (Sample.frame_fields "A" 7));
    reflexivity.
Defined.

(** X7 on two returning handlers. *)
Lemma on_message_dispatches_in_order_witness :
  json_loads (Sample.frame "A" 7) = Some (JObj (Sample.frame_fields "A" 7)) ∧
  Sample.frame_fields "A" 7 !! "stream" = Some (JStr "A") ∧
  Sample.frame_fields "A" 7 !! "data" = Some (JInt 7) ∧
  str_truthy "A" = true ∧
  callbacks Probe.paired !! "A" = Some [Sample.h1; Sample.h2] ∧
  Forall (λ c, fn_body c (JInt 7) = Returns) [Sample.h1; Sample.h2] ∧
  on_message (Sample.frame "A" 7) Probe.paired =
    mkRun Probe.paired ((λ c, Call c (JInt 7)) <$> [Sample.h1; Sample.h2]) (inl tt).
Proof.
  assert (Forall (λ c, fn_body c (JInt 7) = Returns) [Sample.h1; Sample.h2]) as Hall
    by (repeat constructor).
  do 5 (split; [reflexivity|]). split; [exact Hall|].
  apply (on_message_dispatches_in_order Probe.paired (Sample.frame "A" 7)
           (Sample.frame_fields "A" 7) "A" (JInt 7) [Sample.h1; Sample.h2]);
    try reflexivity.
  exact Hall.
Defined.

(** X8 on the frame without data. *)
Lemma on_message_without_data_witness :
  @json_loads Probe.externals Probe.frame_no_data = Some (JObj Probe.fields_no_data) ∧
  Probe.fields_no_data !! "stream" = Some (JStr "A") ∧
  Probe.fields_no_data !! "data" = None ∧
  str_truthy "A" = true ∧
  callbacks Sample.subscribed !! "A" = Some [Sample.h1] ∧
  [Sample.h1] ≠ [] ∧
  @on_message Probe.externals Probe.frame_no_data Sample.subscribed =
    mkRun Sample.subscribed
      [StdoutExn "Error processing message: " (KeyError "data")] (inl tt).
Proof.
  do 5 (split; [reflexivity|]). split; [discriminate|].
  apply (@on_message_without_data Probe.externals Sample.subscribed
           Probe.frame_no_data Probe.fields_no_data "A" [Sample.h1]);
    try reflexivity.
  discriminate.
Defined.

(** X9 on a frame that decodes to a list. *)
Lemma on_message_rejects_non_objects_witness :
  json_loads "[]" = Some (JArr []) ∧
  (∀ m, JArr [] ≠ JObj m) ∧
  on_message "[]" Sample.subscribed =
    mkRun Sample.subscribed
      [StdoutExn "Error processing message: " (AttributeError "get")] (inl tt).
Proof.
  split; [reflexivity|]. split; [discriminate|].
  apply (on_message_rejects_non_objects Sample.subscribed "[]" (JArr []));
    [reflexivity|discriminate].
Defined.

(** X10 on the frame whose stream is a list. *)
Lemma on_message_rejects_unhashable_stream_witness :
  @json_loads Probe.externals Probe.frame_list_stream =
    Some (JObj Probe.fields_list_stream) ∧
  Probe.fields_list_stream !! "stream" = Some (JArr [JStr "A"]) ∧
  ((∃ x l, JArr [JStr "A"] = JArr (x :: l)) ∨
   (∃ o, JArr [JStr "A"] = JObj o ∧ o ≠ ∅)) ∧
  @on_message Probe.externals Probe.frame_list_stream Sample.subscribed =
    mkRun Sample.subscribed
      [StdoutExn "Error processing message: " (TypeError "unhashable type")] (inl tt).
Proof.
  do 2 (split; [reflexivity|]).
  split; [left; exists (JStr "A"), []; reflexivity|].
  apply (@on_message_rejects_unhashable_stream Probe.externals Sample.subscribed
           Probe.frame_list_stream Probe.fields_list_stream (JArr [JStr "A"]));
    [reflexivity|reflexivity|left; exists (JStr "A"), []; reflexivity].
Defined.

(** X11 on the frame of the empty stream name. *)
Lemma on_message_ignores_falsy_stream_witness :
  json_loads (Sample.frame EmptyString 7) =
    Some (JObj (Sample.frame_fields EmptyString 7)) ∧
  truthy (default JNull (Sample.frame_fields EmptyString 7 !! "stream")) = false ∧
  on_message (Sample.frame EmptyString 7) Sample.subscribed =
    mkRun Sample.subscribed [] (inl tt).
Proof.
  do 2 (split; [reflexivity|]).
  apply (on_message_ignores_falsy_stream Sample.subscribed
           (Sample.frame EmptyString 7) (Sample.frame_fields EmptyString 7));
    reflexivity.
Defined.

(** X13 on three handlers of which the second exits. *)
Lemma on_message_lets_non_exceptions_through_witness :
  json_loads (Sample.frame "A" 7) = Some (JObj (Sample.frame_fields "A" 7)) ∧
  Sample.frame_fields "A" 7 !! "stream" = Some (JStr "A") ∧
  Sample.frame_fields "A" 7 !! "data" = Some (JInt 7) ∧
  str_truthy "A" = true ∧
  callbacks Probe.exiting !! "A" = Some ([Sample.h1] ++ Probe.h_exit :: [Sample.h2]) ∧
  Forall (λ c, fn_body c (JInt 7) = Returns) [Sample.h1] ∧
  fn_body Probe.h_exit (JInt 7) = Raises (NonException "SystemExit") ∧
  on_message (Sample.frame "A" 7) Probe.exiting =
    mkRun Probe.exiting ((λ c, Call c (JInt 7)) <$> ([Sample.h1] ++ [Probe.h_exit]))
      (inr (NonException "SystemExit")).
Proof.
  assert (Forall (λ c, fn_body c (JInt 7) = Returns) [Sample.h1]) as Hpre
    by (repeat constructor).
  do 5 (split; [reflexivity|]). split; [exact Hpre|]. split; [reflexivity|].
  apply (on_message_lets_non_exceptions_through Probe.exiting (Sample.frame "A" 7)
           (Sample.frame_fields "A" 7) "A" (JInt 7) [Sample.h1] [Sample.h2]
           Probe.h_exit "SystemExit");
    try reflexivity.
  exact Hpre.
Defined.

(** X14 on a client whose socket is not connected. *)
Lemma unsubscribe_on_closed_socket_keeps_registry_witness :
  ws Probe.waiting = Some Probe.idle_app ∧
  sock Probe.idle_app = false ∧
  unsubscribe ["A"] Probe.waiting =
    mkRun Probe.waiting [] (inr WebSocketConnectionClosedException).
Proof.
  do 2 (split; [reflexivity|]).
  apply (unsubscribe_on_closed_socket_keeps_registry Probe.waiting Probe.idle_app);
    reflexivity.
Defined.

(** X15 on the connected anonymous client. *)
Lemma subscribe_then_unsubscribe_witness :
  ws Sample.connected = Some Sample.open_app ∧
  sock Sample.open_app = true ∧
  (∀ stream,
     callbacks (after (unsubscribe ["A"; "B"]
                         (after (subscribe ["A"; "B"] Sample.h1 false 1
                                   Sample.connected))))
       !! stream =
     if decide (stream ∈ ["A"; "B"]) then None
     else callbacks Sample.connected !! stream) ∧
  ((∀ stream, stream ∈ ["A"; "B"] → callbacks Sample.connected !! stream = None) →
   after (unsubscribe ["A"; "B"]
            (after (subscribe ["A"; "B"] Sample.h1 false 1 Sample.connected))) =
   Sample.connected).
Proof.
  do 2 (split; [reflexivity|]).
  apply (subscribe_then_unsubscribe Sample.connected Sample.open_app); reflexivity.
Defined.

(** X16 on the connected client subscribed to "A". *)
Lemma close_disconnects_witness :
  ws Sample.subscribed = Some Sample.open_app ∧
  close Sample.subscribed =
    mkRun (set_ws (Some {| url := url Sample.open_app; sock := false |})
             Sample.subscribed) [AppClose] (inl tt) ∧
  callbacks (after (close Sample.subscribed)) = callbacks Sample.subscribed ∧
  (∀ streams cb is_private now_ms,
     effects (subscribe streams cb is_private now_ms
                (after (close Sample.subscribed))) = [] ∧
     (∃ e, result (subscribe streams cb is_private now_ms
                     (after (close Sample.subscribed))) = inr e) ∧
     (is_private = false →
      result (subscribe streams cb is_private now_ms
                (after (close Sample.subscribed))) =
        inr WebSocketConnectionClosedException)) ∧
  (∀ streams,
     unsubscribe streams (after (close Sample.subscribed)) =
     mkRun (after (close Sample.subscribed)) []
       (inr WebSocketConnectionClosedException)) ∧
  close (after (close Sample.subscribed)) =
    mkRun (after (close Sample.subscribed)) [AppClose] (inl tt).
Proof.
  split; [reflexivity|].
  apply (close_disconnects Sample.subscribed Sample.open_app). reflexivity.
Defined.

(** C8 on a subscribed client that loses its session twice, the second
    time with a transport error. *)
Lemma disconnects_reconnect_after_fixed_delay_witness :
  explicitly_closed [Transport Opened; DoSubscribe ["A"] Sample.h1 false 1] = false ∧
  result (for_each (concat (report <$> [ConnectionClosed;
                                        TransportError (OtherException "OSError")]))
            deliver
            (after_all [Transport Opened; DoSubscribe ["A"] Sample.h1 false 1]
               (after (__init__ None None)))) = inl tt ∧
  effects (for_each (concat (report <$> [ConnectionClosed;
                                         TransportError (OtherException "OSError")]))
             deliver
             (after_all [Transport Opened; DoSubscribe ["A"] Sample.h1 false 1]
                (after (__init__ None None)))) =
    concat ((λ d,
               match d with
               | ConnectionClosed => []
               | TransportError error => [StdoutExn "WebSocket error: " error]
               end ++
               [Stdout "WebSocket connection closed"; Sleep 5;
                ThreadStart "wss://ws.backpack.exchange"]) <$>
            [ConnectionClosed; TransportError (OtherException "OSError")]) ∧
  sessions (effects (for_each (concat (report <$>
                                 [ConnectionClosed;
                                  TransportError (OtherException "OSError")]))
                       deliver
                       (after_all [Transport Opened;
                                   DoSubscribe ["A"] Sample.h1 false 1]
                          (after (__init__ None None))))) =
    replicate (length [ConnectionClosed; TransportError (OtherException "OSError")])
      "wss://ws.backpack.exchange".
Proof.
  split; [reflexivity|].
  apply (disconnects_reconnect_after_fixed_delay None None
           [Transport Opened; DoSubscribe ["A"] Sample.h1 false 1]
           [ConnectionClosed; TransportError (OtherException "OSError")]).
  reflexivity.
Defined.
